(** * The exporter's port adapter ([exporter/src/lib/Service.py])

    A shallow embedding of the class [Service]: the adapter object is a
    record, every method is a computation in a small state-and-exception
    monad over the object and the list of HTTP requests sent so far, and the
    backend is a function from the requests seen so far and the present
    request to a reply.

    Conventions of the embedding:
    - Python [str] is [string]; [str.lower] acts on the letters [A]..[Z];
    - a custom property is the dictionary [{"key": k, "value": v}] of the
      port descriptor, a record here; its value, the user id, the research
      index and the testing address are scalars;
    - whatever the code stores without looking at it (the [files] member of a
      listing, the credentials) is a [value];
    - the members of [RDS.FileTransferMode] and [RDS.LoginMode] are defined
      outside this file and are taken as parameters ([externals]). *)

From Stdlib Require Import ZArith List String Ascii Bool Lia DecimalString.
Import ListNotations.
Open Scope string_scope.
Open Scope Z_scope.

(** ** Python values *)

Inductive scalar : Type :=
| SNone
| SBool (b : bool)
| SInt (z : Z)
| SStr (s : string).

Definition dict : Type := list (string * scalar).

Inductive value : Type :=
| VNone
| VBool (b : bool)
| VInt (z : Z)
| VStr (s : string)
| VList (l : list string)
| VDict (d : dict).

Inductive exn : Type :=
| TypeError
| IndexError
| KeyError
| ValueError
| AttributeError
| ConnectionError.

Inductive outcome (A : Type) : Type :=
| Ret (a : A)
| Raise (e : exn).

Arguments Ret {A} a.
Arguments Raise {A} e.

(** ** Strings *)

(** [str(x)] of a scalar, as [str.format] and f-strings render it. *)
Definition py_str (x : scalar) : string :=
  match x with
  | SNone => "None"
  | SBool true => "True"
  | SBool false => "False"
  | SInt z => NilZero.string_of_int (Z.to_int z)
  | SStr s => s
  end.

Definition lower_ascii (c : ascii) : ascii :=
  let n := nat_of_ascii c in
  if (Nat.leb 65 n && Nat.leb n 90)%bool then ascii_of_nat (n + 32) else c.

(** [s.lower()] *)
Fixpoint lower (s : string) : string :=
  match s with
  | EmptyString => EmptyString
  | String c r => String (lower_ascii c) (lower r)
  end.

(** [s.startswith(p)] *)
Definition startswith (s p : string) : bool := String.prefix p s.

(** [s.endswith("/")] *)
Fixpoint endswith_slash (s : string) : bool :=
  match s with
  | EmptyString => false
  | String c EmptyString => Ascii.eqb c "/"
  | String _ r => endswith_slash r
  end.

(** [s[:-1]] *)
Fixpoint drop_last (s : string) : string :=
  match s with
  | EmptyString => EmptyString
  | String _ EmptyString => EmptyString
  | String c r => String c (drop_last r)
  end.

(** The characters of a string, each as a string of length one: what
    iterating over a [str] yields. *)
Fixpoint chars (s : string) : list string :=
  match s with
  | EmptyString => []
  | String c r => String c EmptyString :: chars r
  end.

(** ** Sequences indexed the Python way *)

Definition len {A : Type} (l : list A) : Z := Z.of_nat (List.length l).

(** The position an index denotes in a sequence of length [n]: [i] itself
    from [0] to [n - 1], [n + i] from [-n] to [-1], none otherwise. *)
Definition position (n i : Z) : option nat :=
  if (0 <=? i) && (i <? n) then Some (Z.to_nat i)
  else if (- n <=? i) && (i <? 0) then Some (Z.to_nat (n + i))
  else None.

(** [l[i]] *)
Definition getitem {A : Type} (l : list A) (i : Z) : option A :=
  match position (len l) i with
  | Some k => nth_error l k
  | None => None
  end.

(** [del l[i]] *)
Definition delitem {A : Type} (l : list A) (i : Z) : option (list A) :=
  match position (len l) i with
  | Some k => Some (firstn k l ++ skipn (S k) l)%list
  | None => None
  end.

(** [d.get(k, default)] on a decoded JSON object. *)
Fixpoint member (d : list (string * value)) (k : string) (default : value)
  : value :=
  match d with
  | [] => default
  | (k', v) :: r => if String.eqb k' k then v else member r k default
  end.

(** ** The HTTP transport *)

Inductive verb : Type := GET | POST | DELETE.

(** One call of [requests.get], [requests.post] or [requests.delete]: the
    URL and the keyword arguments [json=], [data=], [files=], [verify=]. *)
Record request : Type := {
  rq_verb : verb;
  rq_url : string;
  rq_json : option dict;
  rq_data : option dict;
  rq_files : option (string * list Byte.byte);
  rq_verify : bool
}.

(** What [Response.json()] decodes: an object, or anything else. *)
Inductive document : Type :=
| DObject (members : list (string * value))
| DOther.

(** A [requests.Response]: [status_code], [content], and the decoded body,
    [None] when the body is not JSON ([Response.json()] raises then). *)
Record response : Type := {
  status_code : Z;
  content : list Byte.byte;
  decoded : option document
}.

(** The transport either raises (the port cannot be reached) or hands back
    a response, whatever its status. *)
Inductive reply : Type :=
| Unreachable
| Answer (r : response).

(** Everything the module takes from outside: the process environment, the
    two enumerations of the [RDS] package (which values name a member, and
    whether a login mode compares equal to [0]) and the port behind the
    transport, which sees the requests sent before the present one. *)
Record externals : Type := {
  environ : string -> option string;
  FileTransferMode : value -> bool;
  LoginMode : value -> bool;
  loginMode_eq_0 : value -> bool;
  backend : list request -> request -> reply
}.

(** ** The adapter object *)

Record prop : Type := {
  prop_key : string;
  prop_value : scalar
}.

(** The attributes of a [Service]. [fileTransferMode], [loginMode] and
    [credentials] do not exist before [reloadInformations] sets them. *)
Record Service : Type := {
  files : value;
  servicename : string;
  portaddress : scalar;
  userId : scalar;
  researchIndex : scalar;
  port : string;
  fileStorage : bool;
  metadata : bool;
  customProperties : option (list prop);
  useZipForFolder : bool;
  fileTransferMode : option value;
  loginMode : option value;
  credentials : option value
}.

(** The object together with the requests sent so far, oldest first. *)
Record world : Type := {
  self : Service;
  sent : list request
}.

(** ** Computations *)

Definition M (A : Type) : Type := world -> outcome A * world.

Definition ret {A : Type} (a : A) : M A := fun w => (Ret a, w).

Definition raise {A : Type} (e : exn) : M A := fun w => (Raise e, w).

Definition bind {A B : Type} (m : M A) (k : A -> M B) : M B :=
  fun w =>
    match m w with
    | (Ret a, w') => k a w'
    | (Raise e, w') => (Raise e, w')
    end.

Notation "x <- m ;; k" := (bind m (fun x => k))
  (at level 61, m at next level, right associativity).
Notation "m ;;; k" := (bind m (fun _ => k))
  (at level 61, right associativity).

Definition this : M Service := fun w => (Ret (self w), w).

Definition update (f : Service -> Service) : M unit :=
  fun w => (Ret tt, {| self := f (self w); sent := sent w |}).

Definition lift {A : Type} (o : outcome A) : M A := fun w => (o, w).

Definition set_files (v : value) (s : Service) : Service :=
  {| files := v; servicename := servicename s; portaddress := portaddress s;
     userId := userId s; researchIndex := researchIndex s; port := port s;
     fileStorage := fileStorage s; metadata := metadata s;
     customProperties := customProperties s;
     useZipForFolder := useZipForFolder s;
     fileTransferMode := fileTransferMode s; loginMode := loginMode s;
     credentials := credentials s |}.

Definition set_useZipForFolder (b : bool) (s : Service) : Service :=
  {| files := files s; servicename := servicename s;
     portaddress := portaddress s;
     userId := userId s; researchIndex := researchIndex s; port := port s;
     fileStorage := fileStorage s; metadata := metadata s;
     customProperties := customProperties s;
     useZipForFolder := b;
     fileTransferMode := fileTransferMode s; loginMode := loginMode s;
     credentials := credentials s |}.

Definition set_fileTransferMode (v : value) (s : Service) : Service :=
  {| files := files s; servicename := servicename s;
     portaddress := portaddress s;
     userId := userId s; researchIndex := researchIndex s; port := port s;
     fileStorage := fileStorage s; metadata := metadata s;
     customProperties := customProperties s;
     useZipForFolder := useZipForFolder s;
     fileTransferMode := Some v; loginMode := loginMode s;
     credentials := credentials s |}.

Definition set_loginMode (v : value) (s : Service) : Service :=
  {| files := files s; servicename := servicename s;
     portaddress := portaddress s;
     userId := userId s; researchIndex := researchIndex s; port := port s;
     fileStorage := fileStorage s; metadata := metadata s;
     customProperties := customProperties s;
     useZipForFolder := useZipForFolder s;
     fileTransferMode := fileTransferMode s; loginMode := Some v;
     credentials := credentials s |}.

Definition set_credentials (v : value) (s : Service) : Service :=
  {| files := files s; servicename := servicename s;
     portaddress := portaddress s;
     userId := userId s; researchIndex := researchIndex s; port := port s;
     fileStorage := fileStorage s; metadata := metadata s;
     customProperties := customProperties s;
     useZipForFolder := useZipForFolder s;
     fileTransferMode := fileTransferMode s; loginMode := loginMode s;
     credentials := Some v |}.

(** ** Operations on the cached listing

    [self.files] holds whatever the listing reply had under ["files"], so
    each operation says what it does on every kind of value. *)

(** [self.files[file_id]] *)
Definition subscript (v : value) (i : Z) : outcome string :=
  match v with
  | VList l =>
      match getitem l i with Some f => Ret f | None => Raise IndexError end
  | VStr s =>
      match getitem (chars s) i with
      | Some c => Ret c
      | None => Raise IndexError
      end
  | VDict _ => Raise KeyError
  | VNone | VBool _ | VInt _ => Raise TypeError
  end.

(** [del self.files[file_id]] *)
Definition delete (v : value) (i : Z) : outcome value :=
  match v with
  | VList l =>
      match delitem l i with
      | Some l' => Ret (VList l')
      | None => Raise IndexError
      end
  | VDict _ => Raise KeyError
  | VStr _ | VNone | VBool _ | VInt _ => Raise TypeError
  end.

(** [enumerate(self.files)], without the indices. *)
Definition iterate (v : value) : outcome (list string) :=
  match v with
  | VList l => Ret l
  | VStr s => Ret (chars s)
  | VDict d => Ret (map fst d)
  | VNone | VBool _ | VInt _ => Raise TypeError
  end.

(** ** The methods of [Service] *)

Section Methods.

Variable X : externals.

(** [os.environ.get("VERIFY_SSL", "True") == "True"] *)
Definition verify : bool :=
  String.eqb
    (match environ X "VERIFY_SSL" with Some v => v | None => "True" end)
    "True".

(** A call of [requests]: the request is recorded, then the port answers
    or the call raises. *)
Definition send (rq : request) : M response :=
  fun w =>
    let w' := {| self := self w; sent := (sent w ++ [rq])%list |} in
    match backend X (sent w) rq with
    | Unreachable => (Raise ConnectionError, w')
    | Answer r => (Ret r, w')
    end.

(** [response.json()] *)
Definition json (r : response) : M document :=
  match decoded r with
  | Some d => ret d
  | None => raise ValueError
  end.

(** [json.get(k, default)]: only an object has [get]. *)
Definition get (d : document) (k : string) (default : value) : M value :=
  match d with
  | DObject m => ret (member m k default)
  | DOther => raise AttributeError
  end.

(** The loop of [getProperty]. *)
Fixpoint first_match (ps : list prop) (key : string) : scalar :=
  match ps with
  | [] => SNone
  | p :: r =>
      if String.eqb (prop_key p) key then prop_value p else first_match r key
  end.

Definition getProperty (key : string) : M scalar :=
  s <- this ;;
  match customProperties s with
  | None => raise TypeError
  | Some ps => ret (first_match ps key)
  end.

Definition getFilepath : M scalar :=
  filepath <- getProperty "filepath" ;;
  if endswith_slash (py_str filepath) then
    match filepath with
    | SStr p => ret (SStr (drop_last p))
    | SNone | SBool _ | SInt _ => raise TypeError
    end
  else ret filepath.

Definition getProjectId : M scalar := getProperty "projectId".

(** [getFiles()] with [getContent=False], run to its end. *)
Definition getFiles : M (list string) :=
  s <- this ;;
  lift (iterate (files s)).

Definition getDict : M (string * list string) :=
  s <- this ;;
  fs <- getFiles ;;
  ret (servicename s, fs).

(** [json.dumps] of a string and a list of strings cannot raise, and the
    text only goes to the log: the dictionary stands for it. *)
Definition getJSON : M (string * list string) := getDict.

Definition reloadInformations : M unit :=
  s <- this ;;
  r <- send {| rq_verb := GET;
               rq_url := py_str (portaddress s) ++ "/metadata/informations";
               rq_json := None; rq_data := None; rq_files := None;
               rq_verify := verify |} ;;
  json <- json r ;;
  archive <- get json "fileTransferArchive" (VStr "") ;;
  update (set_useZipForFolder
            (match archive with VStr a => String.eqb a "zip" | _ => false end))
  ;;;
  mode <- get json "fileTransferMode" (VInt 0) ;;
  (if FileTransferMode X mode then update (set_fileTransferMode mode)
   else raise ValueError) ;;;
  login <- get json "loginMode" (VInt 1) ;;
  (if LoginMode X login then update (set_loginMode login)
   else raise ValueError) ;;;
  if loginMode_eq_0 X login then
    cred <- get json "credentials" (VDict []) ;;
    update (set_credentials cred)
  else ret tt.

Definition reload : M unit :=
  (s <- this ;;
   if fileStorage s then
     filepath <- getFilepath ;;
     let data := [("filepath", filepath); ("userId", userId s)] in
     r <- send {| rq_verb := GET;
                  rq_url := py_str (portaddress s) ++ "/storage/folder";
                  rq_json := Some data; rq_data := None; rq_files := None;
                  rq_verify := verify |} ;;
     json <- json r ;;
     listing <- get json "files" VNone ;;
     update (set_files listing)
   else ret tt) ;;;
  s <- this ;;
  if metadata s then reloadInformations else ret tt.

Definition __init__ (servicename0 : string) (userId0 researchIndex0 : scalar)
  (fileStorage0 metadata0 : bool) (customProperties0 : option (list prop))
  (testing : scalar) (log : list request) : outcome unit * world :=
  let port0 :=
    if startswith servicename0 "port-" then servicename0
    else "port-" ++ lower servicename0 in
  let portaddress0 :=
    match testing with
    | SBool false => SStr ("http://circle1-" ++ lower port0)
    | _ => testing
    end in
  reload {| self := {| files := VList [];
                       servicename := servicename0;
                       portaddress := portaddress0;
                       userId := userId0;
                       researchIndex := researchIndex0;
                       port := port0;
                       fileStorage := fileStorage0;
                       metadata := metadata0;
                       customProperties := customProperties0;
                       useZipForFolder := false;
                       fileTransferMode := None;
                       loginMode := None;
                       credentials := None |};
            sent := log |}.

(** The content of the [BytesIO] that [getFile] returns. *)
Definition getFile (file_id : Z) : M (list Byte.byte) :=
  s <- this ;;
  file <- lift (subscript (files s) file_id) ;;
  if fileStorage s then
    root <- getFilepath ;;
    let data := [("userId", userId s);
                 ("filepath", SStr (py_str root ++ "/" ++ file))] in
    response_to <- send {| rq_verb := GET;
                           rq_url := py_str (portaddress s) ++ "/storage/file";
                           rq_json := Some data; rq_data := None;
                           rq_files := None; rq_verify := verify |} ;;
    ret (content response_to)
  else ret [].

Definition triggerPassiveMode (folder : string) : M bool :=
  s <- this ;;
  let data := [("userId", userId s); ("folder", SStr folder)] in
  _ <- getJSON ;;
  if metadata s then
    projectId <- getProjectId ;;
    response_to <- send {| rq_verb := POST;
                           rq_url := py_str (portaddress s)
                                     ++ "/metadata/project/"
                                     ++ py_str projectId ++ "/files";
                           rq_json := None; rq_data := Some data;
                           rq_files := None; rq_verify := verify |} ;;
    if status_code response_to >=? 300 then
      _ <- json response_to ;;
      ret false
    else ret true
  else ret true.

Definition addFile (filename : string) (fileContent : list Byte.byte)
  : M bool :=
  s <- this ;;
  let data := [("userId", userId s); ("filename", SStr filename)] in
  _ <- getJSON ;;
  if metadata s then
    projectId <- getProjectId ;;
    response_to <- send {| rq_verb := POST;
                           rq_url := py_str (portaddress s)
                                     ++ "/metadata/project/"
                                     ++ py_str projectId ++ "/files";
                           rq_json := None; rq_data := Some data;
                           rq_files := Some (filename, fileContent);
                           rq_verify := verify |} ;;
    if status_code response_to >=? 300 then
      _ <- json response_to ;;
      ret false
    else ret true
  else ret true.

Definition removeFile (file_id : Z) : M bool :=
  s <- this ;;
  file <- lift (subscript (files s) file_id) ;;
  let data := [("userId", userId s)] in
  storage <- (if fileStorage s then
                root <- getFilepath ;;
                let data' :=
                  (data ++ [("filepath",
                             SStr (py_str root ++ "/" ++ file))])%list in
                req <- send {| rq_verb := DELETE;
                               rq_url := py_str (portaddress s)
                                         ++ "/storage/file";
                               rq_json := Some data'; rq_data := None;
                               rq_files := None; rq_verify := verify |} ;;
                ret (status_code req <? 300, data')
              else ret (false, data)) ;;
  found <- (if metadata s then
              projectId <- getProjectId ;;
              req <- send {| rq_verb := DELETE;
                             rq_url := py_str (portaddress s)
                                       ++ "/metadata/project/"
                                       ++ py_str projectId ++ "/files/"
                                       ++ py_str (SInt file_id);
                             rq_json := Some (snd storage); rq_data := None;
                             rq_files := None; rq_verify := verify |} ;;
              ret (if status_code req <? 300 then true else fst storage)
            else ret (fst storage)) ;;
  if found then
    s' <- this ;;
    rest <- lift (delete (files s') file_id) ;;
    update (set_files rest) ;;;
    ret true
  else ret false.

Definition removeAllFiles : M bool :=
  s <- this ;;
  let data := [("userId", userId s)] in
  let storage := if fileStorage s then true else false in
  found <- (if metadata s then
              projectId <- getProjectId ;;
              req <- send {| rq_verb := DELETE;
                             rq_url := py_str (portaddress s)
                                       ++ "/metadata/project/"
                                       ++ py_str projectId ++ "/files";
                             rq_json := Some data; rq_data := None;
                             rq_files := None; rq_verify := verify |} ;;
              ret (if status_code req <? 300 then true else storage)
            else ret storage) ;;
  (if found then reload else ret tt) ;;;
  ret found.

End Methods.

(** ** Vocabulary of the statements *)

(** The port answers every request (with whatever status). *)
Definition responsive (X : externals) : Prop :=
  forall log rq, backend X log rq <> Unreachable.

(** A status below 300. *)
Definition success (r : response) : bool := status_code r <? 300.

(** What no method changes after construction: the names, the address, the
    owner, the capabilities and the custom properties. *)
Definition same_binding (s s' : Service) : Prop :=
  servicename s' = servicename s
  /\ portaddress s' = portaddress s
  /\ userId s' = userId s
  /\ researchIndex s' = researchIndex s
  /\ port s' = port s
  /\ fileStorage s' = fileStorage s
  /\ metadata s' = metadata s
  /\ customProperties s' = customProperties s.

(** ** Concrete ports and adapters *)

Definition zero_or_one (v : value) : bool :=
  match v with
  | VInt 0 | VInt 1 => true
  | _ => false
  end.

(** An environment without [VERIFY_SSL], enumerations with the members 0
    and 1, and the given port. *)
Definition externals_with (b : list request -> request -> reply)
  : externals :=
  {| environ := fun _ => None;
     FileTransferMode := zero_or_one;
     LoginMode := zero_or_one;
     loginMode_eq_0 := fun v => match v with VInt 0 => true | _ => false end;
     backend := b |}.

Definition plain (status : Z) : response :=
  {| status_code := status; content := []; decoded := None |}.

Definition object_reply (members : list (string * value)) : response :=
  {| status_code := 200; content := []; decoded := Some (DObject members) |}.

(** A port that answers every request with the same status and no body. *)
Definition port_status (status : Z) : list request -> request -> reply :=
  fun _ _ => Answer (plain status).

(** A port whose first answer has status 500 and whose later answers have
    status 204. *)
Definition port_500_then_204 : list request -> request -> reply :=
  fun log _ =>
    match log with
    | [] => Answer (plain 500)
    | _ :: _ => Answer (plain 204)
    end.

(** A port whose listing has no ["files"] member. *)
Definition port_empty_object : list request -> request -> reply :=
  fun _ _ => Answer (object_reply []).

(** A port that lists [new.txt] on the first request and cannot be reached
    afterwards. *)
Definition port_listing_then_down : list request -> request -> reply :=
  fun log _ =>
    match log with
    | [] => Answer (object_reply [("files", VList ["new.txt"])])
    | _ :: _ => Unreachable
    end.

(** A port that answers every request with status 200 and a listing. *)
Definition port_lists (l : list string) : list request -> request -> reply :=
  fun _ _ => Answer (object_reply [("files", VList l)]).

(** A port that cannot be reached. *)
Definition port_down : list request -> request -> reply :=
  fun _ _ => Unreachable.

Definition sample_properties : list prop :=
  [ {| prop_key := "filepath"; prop_value := SStr "/photos/" |};
    {| prop_key := "projectId"; prop_value := SInt 7 |} ].

(** An adapter for [port-owncloud] holding the given listing. *)
Definition adapter (storage meta : bool) (props : option (list prop))
  (cached : value) : Service :=
  {| files := cached;
     servicename := "Owncloud";
     portaddress := SStr "http://circle1-port-owncloud";
     userId := SStr "admin";
     researchIndex := SInt 0;
     port := "port-owncloud";
     fileStorage := storage;
     metadata := meta;
     customProperties := props;
     useZipForFolder := false;
     fileTransferMode := None;
     loginMode := None;
     credentials := None |}.

Definition fresh (s : Service) : world := {| self := s; sent := [] |}.

(** ** The rest of the class *)

(** The property [zipForFolder]. *)
Definition zipForFolder : M bool :=
  s <- this ;;
  ret (useZipForFolder s).

(** The body of the loop of [getFiles] with [getContent=True], over the
    entries still to come: what has been yielded, and the exception that
    ended the enumeration, if any. *)
Fixpoint getFiles_from (X : externals) (items : list string) (index : Z)
  (w : world) : (list (string * list Byte.byte) * option exn) * world :=
  match items with
  | [] => (([], None), w)
  | file :: rest =>
      match getFile X index w with
      | (Ret content0, w') =>
          match getFiles_from X rest (index + 1) w' with
          | ((more, stop), w'') => (((file, content0) :: more, stop), w'')
          end
      | (Raise e, w') => (([], Some e), w')
      end
  end.

(** [getFiles(getContent=True)] consumed for at most [n] items, nothing
    else being done with the adapter in between. Nothing runs before the
    first item is asked for. *)
Definition getFiles_content (X : externals) (n : nat) (w : world)
  : (list (string * list Byte.byte) * option exn) * world :=
  match n with
  | O => (([], None), w)
  | S _ =>
      match iterate (files (self w)) with
      | Ret items => getFiles_from X (firstn n items) 0 w
      | Raise e => (([], Some e), w)
      end
  end.

(** [==] on the dictionaries of [getDict]. *)
Definition dict_eqb (a b : string * list string) : bool :=
  String.eqb (fst a) (fst b)
  && (if list_eq_dec string_dec (snd a) (snd b) then true else false).

(** [self == obj]; [None] stands for an object that is no [Service]. *)
Definition __eq__ (s : Service) (obj : option Service) : outcome bool :=
  match obj with
  | None => Ret false
  | Some o =>
      match fst (getDict (fresh s)) with
      | Raise e => Raise e
      | Ret mine =>
          match fst (getDict (fresh o)) with
          | Raise e => Raise e
          | Ret theirs => Ret (dict_eqb mine theirs)
          end
      end
  end.

(** The value of a property of a port descriptor: a flag, or the list of
    custom properties. *)
Inductive setting : Type :=
| Flag (b : bool)
| Properties (ps : list prop).

(** One entry of [portDict["properties"]]. *)
Record descriptor_property : Type := {
  portType : string;
  setting_value : setting
}.

(** A port descriptor: [portDict["port"]] and [portDict["properties"]]. *)
Record descriptor : Type := {
  descriptor_port : string;
  descriptor_properties : list descriptor_property
}.

(** What [if self.fileStorage:] and [if self.metadata:] make of a value. *)
Definition truth (v : setting) : bool :=
  match v with
  | Flag b => b
  | Properties [] => false
  | Properties (_ :: _) => true
  end.

(** The custom properties a value gives: a flag cannot be iterated over,
    no more than [None]. *)
Definition as_properties (v : option setting) : option (list prop) :=
  match v with
  | Some (Properties ps) => Some ps
  | Some (Flag _) | None => None
  end.

(** The loop of [fromDict] over the properties: the values of [metadata],
    [fileStorage] and [customProperties] after it. *)
Fixpoint fromDict_loop (ps : list descriptor_property)
  (acc : setting * setting * option setting)
  : setting * setting * option setting :=
  match ps with
  | [] => acc
  | p :: rest =>
      let '(meta, storage, custom) := acc in
      fromDict_loop rest
        (if String.eqb (portType p) "metadata"
         then (setting_value p, storage, custom)
         else if String.eqb (portType p) "fileStorage"
         then (meta, setting_value p, custom)
         else if String.eqb (portType p) "customProperties"
         then (meta, storage, Some (setting_value p))
         else acc)
  end.

Definition fromDict (X : externals) (portDict : descriptor)
  (userId0 researchIndex0 testing : scalar) (log : list request)
  : outcome unit * world :=
  let '(meta, storage, custom) :=
    fromDict_loop (descriptor_properties portDict)
      (Flag false, Flag false, None) in
  __init__ X (descriptor_port portDict) userId0 researchIndex0
    (truth storage) (truth meta) (as_properties custom) testing log.

(** ** Sequences of calls *)

Inductive call : Type :=
| Reload
| ReloadInformations
| GetFile (file_id : Z)
| GetFiles (n : nat)
| TriggerPassiveMode (folder : string)
| AddFile (filename : string) (fileContent : list Byte.byte)
| RemoveFile (file_id : Z)
| RemoveAllFiles.

(** The adapter and the requests after one call, whatever it returned or
    raised. *)
Definition after (X : externals) (c : call) (w : world) : world :=
  match c with
  | Reload => snd (reload X w)
  | ReloadInformations => snd (reloadInformations X w)
  | GetFile i => snd (getFile X i w)
  | GetFiles n => snd (getFiles_content X n w)
  | TriggerPassiveMode folder => snd (triggerPassiveMode X folder w)
  | AddFile filename fileContent => snd (addFile X filename fileContent w)
  | RemoveFile i => snd (removeFile X i w)
  | RemoveAllFiles => snd (removeAllFiles X w)
  end.

(** The same after a sequence of calls. *)
Definition after_all (X : externals) (cs : list call) (w : world) : world :=
  fold_left (fun w' c => after X c w') cs w.

(** A port that differs from the given one in its status codes only. *)
Definition restatus (f : Z -> Z) (X : externals) : externals :=
  {| environ := environ X;
     FileTransferMode := FileTransferMode X;
     LoginMode := LoginMode X;
     loginMode_eq_0 := loginMode_eq_0 X;
     backend := fun log rq =>
                  match backend X log rq with
                  | Unreachable => Unreachable
                  | Answer r =>
                      Answer {| status_code := f (status_code r);
                                content := content r;
                                decoded := decoded r |}
                  end |}.

(** A GET of [<address>/storage/file]. *)
Definition storage_fetch (s : Service) (rq : request) : Prop :=
  rq_verb rq = GET /\ rq_url rq = py_str (portaddress s) ++ "/storage/file".

(** The property types that [fromDict] knows. *)
Definition known (p : descriptor_property) : bool :=
  String.eqb (portType p) "metadata"
  || String.eqb (portType p) "fileStorage"
  || String.eqb (portType p) "customProperties".

(** A request of [reload]: the listing or the informations of the port at
    the given address. *)
Definition synchronizes (address : scalar) (rq : request) : Prop :=
  rq_verb rq = GET
  /\ (rq_url rq = py_str address ++ "/storage/folder"
      \/ rq_url rq = py_str address ++ "/metadata/informations").

(** A descriptor with the metadata flag set twice and an unknown entry. *)
Definition sample_descriptor : descriptor :=
  {| descriptor_port := "Owncloud";
     descriptor_properties :=
       [ {| portType := "metadata"; setting_value := Flag true |};
         {| portType := "color"; setting_value := Flag true |};
         {| portType := "metadata"; setting_value := Flag false |} ] |}.

(** ** The requests and replies of the statements *)

(** The port cannot be reached. *)
Definition unreachable (a : reply) : bool :=
  match a with
  | Unreachable => true
  | Answer _ => false
  end.

(** The port answers with a status below 300. *)
Definition confirms (a : reply) : bool :=
  match a with
  | Unreachable => false
  | Answer r => success r
  end.

(** [{"userId": ...}] and the same with the path of a file added. *)
Definition owner_body (s : Service) : dict := [("userId", userId s)].

Definition path_body (s : Service) (root : scalar) (file : string) : dict :=
  [("userId", userId s); ("filepath", SStr (py_str root ++ "/" ++ file))].


(** The two DELETE requests of [removeFile]. *)
Definition storage_delete (X : externals) (s : Service) (root : scalar)
  (file : string) : request :=
  {| rq_verb := DELETE;
     rq_url := py_str (portaddress s) ++ "/storage/file";
     rq_json := Some (path_body s root file);
     rq_data := None; rq_files := None; rq_verify := verify X |}.

Definition metadata_delete (X : externals) (s : Service) (body : dict)
  (projectId : scalar) (file_id : Z) : request :=
  {| rq_verb := DELETE;
     rq_url := py_str (portaddress s) ++ "/metadata/project/"
               ++ py_str projectId ++ "/files/" ++ py_str (SInt file_id);
     rq_json := Some body;
     rq_data := None; rq_files := None; rq_verify := verify X |}.

(** The DELETE of [removeAllFiles]. *)
Definition bulk_delete (X : externals) (s : Service) (projectId : scalar)
  : request :=
  {| rq_verb := DELETE;
     rq_url := py_str (portaddress s) ++ "/metadata/project/"
               ++ py_str projectId ++ "/files";
     rq_json := Some (owner_body s);
     rq_data := None; rq_files := None; rq_verify := verify X |}.

(** The two GET requests of [reload]. *)
Definition listing_request (X : externals) (s : Service) (root : scalar)
  : request :=
  {| rq_verb := GET;
     rq_url := py_str (portaddress s) ++ "/storage/folder";
     rq_json := Some [("filepath", root); ("userId", userId s)];
     rq_data := None; rq_files := None; rq_verify := verify X |}.

Definition informations_request (X : externals) (s : Service) : request :=
  {| rq_verb := GET;
     rq_url := py_str (portaddress s) ++ "/metadata/informations";
     rq_json := None;
     rq_data := None; rq_files := None; rq_verify := verify X |}.

(** A run of [reload] as [removeAllFiles] ends with it: true when it
    returns, its exception when it raises. *)
Definition resynchronized (run : outcome unit * world)
  : outcome bool * world :=
  match run with
  | (Ret _, w') => (Ret true, w')
  | (Raise e, w') => (Raise e, w')
  end.

(** A port whose first answer has status 204 and that cannot be reached
    afterwards. *)
Definition port_204_then_down : list request -> request -> reply :=
  fun log _ =>
    match log with
    | [] => Answer (plain 204)
    | _ :: _ => Unreachable
    end.


(** * Properties *)

(** ** Indexing *)

Lemma position_inside (n i : Z) :
  - n <= i < n ->
  position n i = Some (Z.to_nat (if 0 <=? i then i else n + i)).
Proof.
  intros Hi. unfold position.
  destruct (Z.leb_spec 0 i) as [H0|H0]; cbn.
  - destruct (Z.ltb_spec i n); [reflexivity|lia].
  - destruct (Z.leb_spec (- n) i); [|lia].
    destruct (Z.ltb_spec i 0); [reflexivity|lia].
Qed.

Lemma position_outside (n i : Z) :
  i < - n \/ n <= i -> position n i = None.
Proof.
  intros Hi. unfold position.
  destruct (Z.leb_spec 0 i); cbn.
  - destruct (Z.ltb_spec i n); [lia|].
    destruct (Z.leb_spec (- n) i); cbn; [|reflexivity].
    destruct (Z.ltb_spec i 0); [lia|reflexivity].
  - destruct (Z.leb_spec (- n) i); cbn; [lia|reflexivity].
Qed.


Lemma position_bound (n i : Z) (k : nat) :
  position n i = Some k -> (k < Z.to_nat n)%nat.
Proof.
  unfold position.
  destruct (Z.leb_spec 0 i); cbn.
  - destruct (Z.ltb_spec i n); cbn.
    + intros E. injection E as <-. lia.
    + destruct (Z.leb_spec (- n) i); cbn; [|discriminate].
      destruct (Z.ltb_spec i 0); [lia|discriminate].
  - destruct (Z.leb_spec (- n) i); cbn; [|discriminate].
    destruct (Z.ltb_spec i 0); [|discriminate].
    intros E. injection E as <-. lia.
Qed.

Lemma getitem_inside {A : Type} (l : list A) (i : Z) :
  - len l <= i < len l -> exists x, getitem l i = Some x.
Proof.
  intros Hi. unfold getitem.
  destruct (position (len l) i) as [k|] eqn:E.
  - apply position_bound in E. unfold len in E.
    rewrite Nat2Z.id in E.
    destruct (nth_error l k) as [x|] eqn:N; [now exists x|].
    apply nth_error_None in N. lia.
  - rewrite position_inside in E by assumption. discriminate.
Qed.

Lemma getitem_outside {A : Type} (l : list A) (i : Z) :
  i < - len l \/ len l <= i -> getitem l i = None.
Proof.
  intros Hi. unfold getitem. now rewrite position_outside.
Qed.

Lemma delitem_inside {A : Type} (l : list A) (i : Z) :
  - len l <= i < len l ->
  exists l', delitem l i = Some l' /\ len l' = len l - 1.
Proof.
  intros Hi. unfold delitem.
  destruct (position (len l) i) as [k|] eqn:E.
  - apply position_bound in E. unfold len in E.
    rewrite Nat2Z.id in E.
    eexists. split; [reflexivity|].
    unfold len. rewrite length_app, length_firstn, length_skipn. lia.
  - rewrite position_inside in E by assumption. discriminate.
Qed.


(** ** Property lookup *)

Lemma getProperty_list (key : string) (w : world)
  (ps : list prop) :
  customProperties (self w) = Some ps ->
  getProperty key w = (Ret (first_match ps key), w).
Proof.
  intros H. unfold getProperty, bind, this, ret. now rewrite H.
Qed.

Lemma getProperty_no_list (key : string) (w : world) :
  customProperties (self w) = None ->
  getProperty key w = (Raise TypeError, w).
Proof.
  intros H. unfold getProperty, bind, this, raise. now rewrite H.
Qed.

Lemma first_match_found (ps qs : list prop) (p : prop) (key : string) :
  (forall q, In q ps -> prop_key q <> key) ->
  prop_key p = key ->
  first_match (ps ++ p :: qs)%list key = prop_value p.
Proof.
  intros Hps Hp. induction ps as [|q ps IH]; cbn.
  - rewrite Hp, String.eqb_refl. reflexivity.
  - destruct (String.eqb_spec (prop_key q) key) as [E|E].
    + exfalso. apply (Hps q); [now left|exact E].
    + apply IH. intros r Hr. apply Hps. now right.
Qed.

Lemma first_match_absent (ps : list prop) (key : string) :
  (forall q, In q ps -> prop_key q <> key) ->
  first_match ps key = SNone.
Proof.
  intros Hps. induction ps as [|q ps IH]; cbn; [reflexivity|].
  destruct (String.eqb_spec (prop_key q) key) as [E|E].
  - exfalso. apply (Hps q); [now left|exact E].
  - apply IH. intros r Hr. apply Hps. now right.
Qed.

(** The decimal rendering of an integer does not end in a slash. *)
Lemma digits_no_slash (d : Decimal.uint) :
  endswith_slash (NilEmpty.string_of_uint d) = false.
Proof.
  induction d; cbn; try reflexivity;
    destruct (NilEmpty.string_of_uint d); cbn in *;
    solve [reflexivity | assumption].
Qed.

Lemma decimal_no_slash (z : Z) :
  endswith_slash (py_str (SInt z)) = false.
Proof.
  unfold py_str, NilZero.string_of_int.
  destruct (Z.to_int z) as [d|d]; unfold NilZero.string_of_uint.
  - destruct d; try reflexivity; apply (digits_no_slash (_ d)).
  - destruct d; try reflexivity.
    all: match goal with
         | |- endswith_slash (String _ (NilEmpty.string_of_uint ?u)) = _ =>
             pose proof (digits_no_slash u) as H; cbn in H |- *;
             destruct (NilEmpty.string_of_uint _); cbn in *;
             solve [reflexivity | assumption]
         end.
Qed.

Lemma getFilepath_list (w : world) (ps : list prop) :
  customProperties (self w) = Some ps ->
  exists root, getFilepath w = (Ret root, w).
Proof.
  intros H. unfold getFilepath, bind.
  rewrite (getProperty_list _ w ps H).
  destruct (first_match ps "filepath") as [|b|z|p] eqn:E.
  - eexists. reflexivity.
  - destruct b; eexists; reflexivity.
  - rewrite decimal_no_slash. eexists. reflexivity.
  - destruct (endswith_slash (py_str (SStr p))); eexists; reflexivity.
Qed.

Lemma getFilepath_no_list (w : world) :
  customProperties (self w) = None ->
  getFilepath w = (Raise TypeError, w).
Proof.
  intros H. unfold getFilepath, bind.
  now rewrite (getProperty_no_list _ w H).
Qed.

(** [getFilepath] raises nothing but [TypeError] and changes nothing. *)
Lemma getFilepath_cases (w : world) :
  (exists root, getFilepath w = (Ret root, w))
  \/ getFilepath w = (Raise TypeError, w).
Proof.
  destruct (customProperties (self w)) as [ps|] eqn:E.
  - left. exact (getFilepath_list w ps E).
  - right. exact (getFilepath_no_list w E).
Qed.

Lemma getProjectId_cases (w : world) :
  (exists pid, getProjectId w = (Ret pid, w))
  \/ getProjectId w = (Raise TypeError, w).
Proof.
  unfold getProjectId.
  destruct (customProperties (self w)) as [ps|] eqn:E.
  - left. eexists. exact (getProperty_list _ w ps E).
  - right. exact (getProperty_no_list _ w E).
Qed.

(** ** Sending *)

Lemma send_answered (X : externals) (rq : request) (w : world) :
  responsive X ->
  exists r,
    backend X (sent w) rq = Answer r
    /\ send X rq w = (Ret r, {| self := self w; sent := (sent w ++ [rq])%list |}).
Proof.
  intros HX. unfold send.
  destruct (backend X (sent w) rq) as [|r] eqn:E.
  - exfalso. exact (HX _ _ E).
  - exists r. split; reflexivity.
Qed.


(** ** Single file fetch *)

Lemma getFile_outside (X : externals) (s : Service) (log : list request)
  (i : Z) (l : list string) :
  files s = VList l -> i < - len l \/ len l <= i ->
  getFile X i {| self := s; sent := log |}
  = (Raise IndexError, {| self := s; sent := log |}).
Proof.
  intros Hl Hi. unfold getFile, bind, this, lift, subscript. cbn [self].
  now rewrite Hl, (getitem_outside l i Hi).
Qed.

(** C5. On an adapter whose cache is a list: without the storage
    capability, [getFile] at an index inside the cache returns the empty
    buffer and sends nothing; with or without it, an index outside the
    cache raises [IndexError], again before anything is sent. *)
Theorem getFile_without_storage (X : externals) (s : Service)
  (log : list request) (i : Z) (l : list string) :
  files s = VList l ->
  (fileStorage s = false -> - len l <= i < len l ->
   getFile X i {| self := s; sent := log |}
   = (Ret [], {| self := s; sent := log |}))
  /\ (i < - len l \/ len l <= i ->
      getFile X i {| self := s; sent := log |}
      = (Raise IndexError, {| self := s; sent := log |})).
Proof.
  intros Hl. split.
  - intros HfS Hi. destruct (getitem_inside l i Hi) as [file Hfile].
    unfold getFile, bind, this, lift, ret, subscript. cbn [self].
    now rewrite Hl, Hfile, HfS.
  - exact (getFile_outside X s log i l Hl).
Qed.

Lemma getFile_without_storage_witness :
  files (adapter false true None (VList ["a.txt"; "b.txt"]))
  = VList ["a.txt"; "b.txt"]
  /\ getFile (externals_with port_down) 1
       (fresh (adapter false true None (VList ["a.txt"; "b.txt"])))
     = (Ret [], fresh (adapter false true None (VList ["a.txt"; "b.txt"])))
  /\ getFile (externals_with port_down) 2
       (fresh (adapter false true None (VList ["a.txt"; "b.txt"])))
     = (Raise IndexError,
        fresh (adapter false true None (VList ["a.txt"; "b.txt"]))).
Proof.
  split; [reflexivity|].
  destruct (getFile_without_storage (externals_with port_down)
              (adapter false true None (VList ["a.txt"; "b.txt"]))
              [] 1 ["a.txt"; "b.txt"] eq_refl) as [Hin _].
  destruct (getFile_without_storage (externals_with port_down)
              (adapter false true None (VList ["a.txt"; "b.txt"]))
              [] 2 ["a.txt"; "b.txt"] eq_refl) as [_ Hout].
  split.
  - apply Hin; [reflexivity|unfold len; cbn; lia].
  - apply Hout. right. unfold len; cbn; lia.
Defined.

(** ** Running a method case by case *)

Lemma send_cases (X : externals) (rq : request) (w : world) :
  (exists r, send X rq w
             = (Ret r, {| self := self w; sent := (sent w ++ [rq])%list |}))
  \/ send X rq w
     = (Raise ConnectionError,
        {| self := self w; sent := (sent w ++ [rq])%list |}).
Proof.
  unfold send. destruct (backend X (sent w) rq) as [|r].
  - now right.
  - left. now exists r.
Qed.


Ltac run_projectId :=
  match goal with
  | |- context [getProjectId ?w] =>
      let pid := fresh "pid" in
      destruct (getProjectId_cases w) as [[pid ->] | ->]
  end.

Ltac run_send X :=
  match goal with
  | |- context [send X ?rq ?w] =>
      let r := fresh "r" in
      destruct (send_cases X rq w) as [[r ->] | ->]
  end.




Lemma removeFile_outside (X : externals) (s : Service) (log : list request)
  (i : Z) (l : list string) :
  files s = VList l -> i < - len l \/ len l <= i ->
  removeFile X i {| self := s; sent := log |}
  = (Raise IndexError, {| self := s; sent := log |}).
Proof.
  intros Hl Hi. unfold removeFile, bind, this, lift, subscript. cbn [self].
  now rewrite Hl, (getitem_outside l i Hi).
Qed.


Lemma send_answer (X : externals) (rq : request) (w : world) (r : response) :
  backend X (sent w) rq = Answer r ->
  send X rq w = (Ret r, {| self := self w; sent := (sent w ++ [rq])%list |}).
Proof. intros H. unfold send. now rewrite H. Qed.

(** ** Synchronization *)

Lemma same_binding_refl (s : Service) : same_binding s s.
Proof. repeat split. Qed.

(** Case analysis on the innermost scrutinee, until none is left. *)
Ltac split_cases :=
  repeat (cbn [fst snd self sent];
          match goal with
          | |- context [match ?x with _ => _ end] =>
              lazymatch x with
              | context [match _ with _ => _ end] => fail
              | _ => destruct x
              end
          end).

Lemma reloadInformations_frame (X : externals) (w : world) :
  files (self (snd (reloadInformations X w))) = files (self w)
  /\ same_binding (self w) (self (snd (reloadInformations X w)))
  /\ exists rq, sent (snd (reloadInformations X w)) = (sent w ++ [rq])%list.
Proof.
  unfold reloadInformations, bind, this, ret, raise, update, json, get, send.
  cbn [self sent].
  unfold ret, raise.
  split_cases; cbn; (split; [reflexivity|]);
    (split; [unfold same_binding; cbn; repeat split|]);
    eexists; reflexivity.
Qed.

Lemma reload_no_storage (X : externals) (w : world) :
  fileStorage (self w) = false ->
  files (self (snd (reload X w))) = files (self w).
Proof.
  intros HfS. unfold reload, bind, this, ret. cbn [self sent].
  rewrite HfS. destruct (metadata (self w)); [|reflexivity].
  destruct (reloadInformations_frame X w) as (Hf & _ & _).
  destruct (reloadInformations X w) as [[[]|e] w1]; exact Hf.
Qed.

(** With the storage capability, [reload] either fails inside the storage
    branch, the cache untouched, or stores what the listing reply has under
    ["files"] ([None] when it has no such member) and goes on to the
    metadata branch. *)
Lemma reload_storage (X : externals) (w : world) :
  fileStorage (self w) = true ->
  (exists e, reload X w = (Raise e, snd (reload X w))
             /\ files (self (snd (reload X w))) = files (self w))
  \/ (exists rq resp d rest,
         backend X (sent w) rq = Answer resp
         /\ decoded resp = Some (DObject d)
         /\ files (self (snd (reload X w))) = member d "files" VNone
         /\ sent (snd (reload X w)) = (sent w ++ rq :: rest)%list
         /\ (metadata (self w) = false -> fst (reload X w) = Ret tt)).
Proof.
  intros HfS. unfold reload, bind, this, update, json, get.
  unfold ret, raise. cbn [self sent]. rewrite HfS.
  destruct (getFilepath_cases w) as [[root ->] | ->];
    [|left; eexists; split; reflexivity].
  unfold send. cbn [self sent].
  match goal with |- context [backend X (sent w) ?rq] =>
    set (listing := rq); destruct (backend X (sent w) listing) as [|r] eqn:Hr
  end; [left; eexists; split; reflexivity|].
  destruct (decoded r) as [[d|]|] eqn:Hd; cbn [fst snd self sent];
    try (left; eexists; split; reflexivity).
  right. exists listing, r, d.
  destruct (metadata (self w)) eqn:Hmd; cbn [metadata set_files].
  - rewrite Hmd.
    match goal with |- context [reloadInformations X ?w1] =>
      destruct (reloadInformations_frame X w1) as (Hf & _ & [rq2 Hs]);
      destruct (reloadInformations X w1) as [[[]|e] w2]
    end; cbn [fst snd self sent] in *; exists [rq2];
      (split; [exact Hr|]); (split; [exact Hd|]);
      (split; [exact Hf|]); (split; [|discriminate]);
      rewrite Hs, <- app_assoc; reflexivity.
  - rewrite Hmd. exists []. cbn [fst snd self sent].
    repeat split; try reflexivity; assumption.
Qed.

(** C4, as stated, fails: with both capabilities, a listing of [new.txt]
    and a metadata port that cannot be reached, [reload] raises and the
    cache, [old.txt] before the call, holds [new.txt]. *)
Lemma reload_not_atomic :
  let X := externals_with port_listing_then_down in
  let w := fresh (adapter true true (Some sample_properties)
                    (VList ["old.txt"])) in
  exists w', reload X w = (Raise ConnectionError, w')
             /\ files (self w') = VList ["new.txt"]
             /\ files (self w') <> files (self w).
Proof.
  intros X w. eexists. split; [reflexivity|].
  split; [reflexivity|discriminate].
Qed.

(** C3. When the listing reply is an object without ["files"], [reload]
    completes and leaves [None] in the cache, not the empty list; the
    adapter then cannot enumerate its files any more. *)
Theorem reload_missing_listing :
  let X := externals_with port_empty_object in
  let w := fresh (adapter true false (Some sample_properties)
                    (VList ["old.txt"])) in
  exists w', reload X w = (Ret tt, w')
             /\ files (self w') = VNone
             /\ files (self w') <> VList []
             /\ fst (getDict w') = Raise TypeError.
Proof.
  intros X w. eexists. split; [reflexivity|].
  split; [reflexivity|]. split; [discriminate|reflexivity].
Qed.

(** ** Property lookup on a constructed adapter *)

(** C6. An adapter constructed without custom properties (the default of
    the constructor) is constructed all right, and [getProperty] then
    raises [TypeError] instead of returning [None]. *)
Theorem getProperty_default_properties :
  let X := externals_with port_down in
  let run := __init__ X "owncloud" (SStr "admin") (SInt 0) false false None
               (SBool false) [] in
  fst run = Ret tt
  /\ customProperties (self (snd run)) = None
  /\ getProperty "filepath" (snd run) = (Raise TypeError, snd run).
Proof. intros X run. repeat split. Qed.

(** On a list of properties the lookup is as the specification has it: the
    value of the first property with the key, [None] when there is none,
    and nothing changes, so that a second call gives the same. *)
Lemma getProperty_first_match (w : world) (qs rs : list prop) (p : prop)
  (key : string) :
  customProperties (self w) = Some (qs ++ p :: rs)%list ->
  (forall q, In q qs -> prop_key q <> key) ->
  prop_key p = key ->
  getProperty key w = (Ret (prop_value p), w).
Proof.
  intros Hps Hqs Hp. rewrite (getProperty_list key w _ Hps).
  now rewrite (first_match_found qs rs p key Hqs Hp).
Qed.

Lemma getProperty_miss (w : world) (ps : list prop) (key : string) :
  customProperties (self w) = Some ps ->
  (forall q, In q ps -> prop_key q <> key) ->
  getProperty key w = (Ret SNone, w).
Proof.
  intros Hps Hkey. rewrite (getProperty_list key w _ Hps).
  now rewrite (first_match_absent ps key Hkey).
Qed.

Lemma getProperty_twice (w : world) (key : string) :
  (x <- getProperty key ;; y <- getProperty key ;; ret (x, y)) w
  = (x <- getProperty key ;; ret (x, x)) w.
Proof.
  unfold bind.
  destruct (customProperties (self w)) as [ps|] eqn:E.
  - rewrite (getProperty_list key w ps E).
    now rewrite (getProperty_list key w ps E).
  - now rewrite (getProperty_no_list key w E).
Qed.

(** ** Passive mode and add file *)

Lemma getJSON_list (w : world) (l : list string) :
  files (self w) = VList l ->
  getJSON w = (Ret (servicename (self w), l), w).
Proof.
  intros Hl. unfold getJSON, getDict, getFiles, bind, this, lift, ret.
  cbn [self]. now rewrite Hl.
Qed.

(** Without the metadata capability the trigger is a success that sends
    nothing. *)
Lemma triggerPassiveMode_not_applicable (X : externals) (w : world)
  (folder : string) (l : list string) :
  files (self w) = VList l ->
  metadata (self w) = false ->
  triggerPassiveMode X folder w = (Ret true, w).
Proof.
  intros Hl Hmd. unfold triggerPassiveMode, bind, this, ret. cbn [self].
  now rewrite (getJSON_list w l Hl), Hmd.
Qed.

(** With the metadata capability and an answer whose body, when the status
    is 300 or more, is JSON, the trigger returns whether the status is
    below 300. *)
Lemma triggerPassiveMode_answered (X : externals) (w : world)
  (folder : string) (l : list string) (ps : list prop) :
  files (self w) = VList l ->
  metadata (self w) = true ->
  customProperties (self w) = Some ps ->
  exists rq,
    forall r, backend X (sent w) rq = Answer r ->
              (300 <= status_code r -> decoded r <> None) ->
              fst (triggerPassiveMode X folder w) = Ret (success r).
Proof.
  intros Hl Hmd Hps.
  unfold triggerPassiveMode, getProjectId, bind, this, ret, json.
  cbn [self]. rewrite (getJSON_list w l Hl), Hmd.
  rewrite (getProperty_list _ w ps Hps).
  match goal with |- context [send X ?q w] => exists q end.
  intros r Hr Hbody. rewrite (send_answer X _ w r Hr). unfold success.
  destruct (Z.ltb_spec (status_code r) 300) as [Hlt|Hge].
  - destruct (Z.geb_spec (status_code r) 300); [lia|reflexivity].
  - destruct (Z.geb_spec (status_code r) 300); [|lia].
    destruct (decoded r); [reflexivity|]. now exfalso; apply Hbody.
Qed.

(** C7. With the metadata capability and the project id among the
    properties, a reply of status 500 whose body is not JSON makes
    [triggerPassiveMode] raise [ValueError], out of the [json()] call made
    for the log, where its documentation promises [False]. *)
Theorem triggerPassiveMode_error_body :
  let X := externals_with (port_status 500) in
  let w := fresh (adapter false true (Some sample_properties) (VList [])) in
  exists rq r,
    sent (snd (triggerPassiveMode X "photos" w)) = [rq]
    /\ backend X [] rq = Answer r
    /\ 300 <= status_code r
    /\ fst (triggerPassiveMode X "photos" w) = Raise ValueError
    /\ fst (triggerPassiveMode X "photos" w) <> Ret false.
Proof.
  intros X w. eexists. exists (plain 500).
  split; [reflexivity|]. split; [reflexivity|].
  split; [cbn; lia|]. split; [reflexivity|discriminate].
Qed.

(** [addFile] changes no attribute of the adapter, whatever happens. *)
Lemma addFile_keeps_object (X : externals) (w : world) (filename : string)
  (fileContent : list Byte.byte) :
  self (snd (addFile X filename fileContent w)) = self w.
Proof.
  unfold addFile, getJSON, getDict, getFiles, getProjectId, getProperty,
    bind, this, lift, send, json.
  unfold bind, this, ret, raise. cbn [self sent].
  split_cases; reflexivity.
Qed.

Lemma addFile_not_applicable (X : externals) (w : world)
  (filename : string) (fileContent : list Byte.byte) (l : list string) :
  files (self w) = VList l ->
  metadata (self w) = false ->
  addFile X filename fileContent w = (Ret true, w).
Proof.
  intros Hl Hmd. unfold addFile, bind, this, ret. cbn [self].
  now rewrite (getJSON_list w l Hl), Hmd.
Qed.

Lemma addFile_answered (X : externals) (w : world) (filename : string)
  (fileContent : list Byte.byte) (l : list string) (ps : list prop) :
  files (self w) = VList l ->
  metadata (self w) = true ->
  customProperties (self w) = Some ps ->
  exists rq,
    forall r, backend X (sent w) rq = Answer r ->
              (300 <= status_code r -> decoded r <> None) ->
              fst (addFile X filename fileContent w) = Ret (success r).
Proof.
  intros Hl Hmd Hps.
  unfold addFile, getProjectId, bind, this, ret, json.
  cbn [self]. rewrite (getJSON_list w l Hl), Hmd.
  rewrite (getProperty_list _ w ps Hps).
  match goal with |- context [send X ?q w] => exists q end.
  intros r Hr Hbody. rewrite (send_answer X _ w r Hr). unfold success.
  destruct (Z.ltb_spec (status_code r) 300) as [Hlt|Hge].
  - destruct (Z.geb_spec (status_code r) 300); [lia|reflexivity].
  - destruct (Z.geb_spec (status_code r) 300); [|lia].
    destruct (decoded r); [reflexivity|]. now exfalso; apply Hbody.
Qed.

(** C8. On a metadata-only adapter, a reply of status 500 whose body is not
    JSON makes [addFile] raise [ValueError], out of the [json()] call made
    for the log, where its documentation promises [False]; the cache is as
    before. *)
Theorem addFile_error_body :
  let X := externals_with (port_status 500) in
  let w := fresh (adapter false true (Some sample_properties) (VList [])) in
  exists rq r,
    sent (snd (addFile X "a.txt" [] w)) = [rq]
    /\ backend X [] rq = Answer r
    /\ 300 <= status_code r
    /\ fst (addFile X "a.txt" [] w) = Raise ValueError
    /\ fst (addFile X "a.txt" [] w) <> Ret false
    /\ files (self (snd (addFile X "a.txt" [] w))) = files (self w).
Proof.
  intros X w. eexists. exists (plain 500).
  split; [reflexivity|]. split; [reflexivity|].
  split; [cbn; lia|]. split; [reflexivity|].
  split; [discriminate|reflexivity].
Qed.

(** ** Construction *)

Lemma same_binding_set_files (s : Service) (v : value) :
  same_binding s (set_files v s).
Proof. repeat split. Qed.

Lemma same_binding_trans (s1 s2 s3 : Service) :
  same_binding s1 s2 -> same_binding s2 s3 -> same_binding s1 s3.
Proof.
  unfold same_binding.
  intros (A1 & A2 & A3 & A4 & A5 & A6 & A7 & A8)
         (B1 & B2 & B3 & B4 & B5 & B6 & B7 & B8).
  repeat split; congruence.
Qed.

(** [reload] changes neither names, address, owner, capabilities nor
    properties. *)
Lemma reload_binding (X : externals) (w : world) :
  same_binding (self w) (self (snd (reload X w))).
Proof.
  unfold reload, bind, this, update, json, get.
  unfold ret, raise. cbn [self sent].
  destruct (fileStorage (self w)).
  - destruct (getFilepath_cases w) as [[root ->] | ->];
      [|apply same_binding_refl].
    unfold send. cbn [self sent].
    destruct (backend X (sent w) _) as [|r]; [apply same_binding_refl|].
    destruct (decoded r) as [[d|]|]; cbn [fst snd self sent];
      try apply same_binding_refl.
    destruct (metadata (set_files (member d "files" VNone) (self w)));
      [|apply same_binding_set_files].
    match goal with |- context [reloadInformations X ?w1] =>
      destruct (reloadInformations_frame X w1) as (_ & Hb & _);
      destruct (reloadInformations X w1) as [[[]|e] w2]
    end; cbn [fst snd self sent] in *;
      (eapply same_binding_trans; [apply same_binding_set_files|exact Hb]).
  - destruct (metadata (self w)); [|apply same_binding_refl].
    destruct (reloadInformations_frame X w) as (_ & Hb & _).
    destruct (reloadInformations X w) as [[[]|e] w2]; exact Hb.
Qed.

Lemma port_prefix (name : string) :
  startswith ("port-" ++ name) "port-" = true.
Proof. unfold startswith. cbn. destruct name; reflexivity. Qed.

(** C2, as amended. Construction validates nothing about the name. For
    every port name, the empty one included, the adapter's port starts with
    [port-]: the name itself when it starts so, and otherwise [port-]
    followed by the name in lower case; the base address is
    [http://circle1-] followed by the port in lower case, unless [testing]
    is given (anything but [False]), which then is the address. Without a
    capability, construction always completes. *)
Theorem construction_normalizes (X : externals) (name : string)
  (user index : scalar) (storage meta : bool) (props : option (list prop))
  (testing : scalar) (log : list request) :
  let s := self (snd (__init__ X name user index storage meta props
                        testing log)) in
  startswith (port s) "port-" = true
  /\ port s = (if startswith name "port-" then name
               else "port-" ++ lower name)
  /\ portaddress s = match testing with
                     | SBool false => SStr ("http://circle1-" ++ lower (port s))
                     | _ => testing
                     end
  /\ fst (__init__ X name user index false false props testing log) = Ret tt.
Proof.
  intros s. unfold s, __init__.
  match goal with |- context [reload X ?w0] =>
    destruct (reload_binding X w0) as (_ & Ha & _ & _ & Hp & _)
  end.
  cbn [self port portaddress] in Ha, Hp. rewrite Hp, Ha.
  split; [|split; [reflexivity|split; [reflexivity|reflexivity]]].
  destruct (startswith name "port-") eqn:E; [exact E|apply port_prefix].
Qed.

(** C2, as stated, fails: constructing an adapter with the empty port name
    completes, with the port [port-] and the address
    [http://circle1-port-]. *)
Lemma construction_empty_name :
  let run := __init__ (externals_with port_down) "" (SStr "admin") (SInt 0)
               false false None (SBool false) [] in
  fst run = Ret tt
  /\ (forall e, fst run <> Raise e)
  /\ port (self (snd run)) = "port-"
  /\ portaddress (self (snd run)) = SStr "http://circle1-port-".
Proof.
  intros run. split; [reflexivity|]. split; [discriminate|].
  split; reflexivity.
Qed.

(** * Further properties of the class *)

(** ** What the methods leave alone *)

Ltac unfold_run :=
  unfold getFile, triggerPassiveMode, addFile, removeFile, removeAllFiles,
    getJSON, getDict, getFiles, getFilepath, getProjectId, getProperty,
    bind, this, lift, update, send, json, get;
  unfold bind, this, ret, raise; cbn [self sent].

Lemma getFile_keeps_object (X : externals) (i : Z) (w : world) :
  self (snd (getFile X i w)) = self w.
Proof. unfold_run. split_cases; reflexivity. Qed.

Lemma triggerPassiveMode_keeps_object (X : externals) (folder : string)
  (w : world) :
  self (snd (triggerPassiveMode X folder w)) = self w.
Proof. unfold_run. split_cases; reflexivity. Qed.

Lemma getFiles_from_keeps_object (X : externals) (items : list string) :
  forall (index : Z) (w : world),
    self (snd (getFiles_from X items index w)) = self w.
Proof.
  induction items as [|file rest IH]; intros index w; cbn [getFiles_from].
  - reflexivity.
  - pose proof (getFile_keeps_object X index w) as Hg.
    destruct (getFile X index w) as [[c|e] w1]; cbn [snd] in Hg.
    + specialize (IH (index + 1) w1).
      destruct (getFiles_from X rest (index + 1) w1) as [[more stop] w2].
      cbn [snd] in *. congruence.
    + exact Hg.
Qed.

Lemma getFiles_content_keeps_object (X : externals) (n : nat) (w : world) :
  self (snd (getFiles_content X n w)) = self w.
Proof.
  unfold getFiles_content. destruct n; [reflexivity|].
  destruct (iterate (files (self w))); [|reflexivity].
  apply getFiles_from_keeps_object.
Qed.

Lemma removeFile_binding (X : externals) (i : Z) (w : world) :
  same_binding (self w) (self (snd (removeFile X i w))).
Proof.
  unfold_run. unfold subscript, delete.
  split_cases; cbn [fst snd self sent];
    solve [apply same_binding_refl | apply same_binding_set_files].
Qed.

(** [removeAllFiles] ends with the adapter as it was, or as a [reload] of
    the adapter as it was leaves it. *)
Lemma removeAllFiles_cases (X : externals) (w : world) :
  exists w1,
    self w1 = self w
    /\ (snd (removeAllFiles X w) = w1
        \/ snd (removeAllFiles X w) = snd (reload X w1)).
Proof.
  unfold removeAllFiles, bind, this.
  unfold ret. cbn [self sent].
  assert (Hend : forall (found : bool) (w1 : world),
             self w1 = self w ->
             exists w2,
               self w2 = self w
               /\ (snd (let (o, w') :=
                          (if found then reload X
                           else fun w0 : world => (Ret tt, w0)) w1 in
                        match o with
                        | Ret _ => (Ret found, w')
                        | Raise e => (Raise e, w')
                        end) = w2
                   \/ snd (let (o, w') :=
                             (if found then reload X
                              else fun w0 : world => (Ret tt, w0)) w1 in
                           match o with
                           | Ret _ => (Ret found, w')
                           | Raise e => (Raise e, w')
                           end) = snd (reload X w2))).
  { intros found w1 H1. exists w1. split; [exact H1|].
    destruct found; [right|left; reflexivity].
    destruct (reload X w1) as [[[]|e] w2]; reflexivity. }
  destruct (metadata (self w)).
  - run_projectId; [|exists w; split; [reflexivity|left; reflexivity]].
    run_send X.
    + apply Hend. reflexivity.
    + eexists. split; [|left; reflexivity]. reflexivity.
  - apply Hend. reflexivity.
Qed.

Lemma removeAllFiles_binding (X : externals) (w : world) :
  same_binding (self w) (self (snd (removeAllFiles X w))).
Proof.
  destruct (removeAllFiles_cases X w) as (w1 & H1 & [-> | ->]).
  - rewrite H1. apply same_binding_refl.
  - rewrite <- H1. apply reload_binding.
Qed.

Lemma removeAllFiles_no_storage (X : externals) (w : world) :
  fileStorage (self w) = false ->
  files (self (snd (removeAllFiles X w))) = files (self w).
Proof.
  intros HfS.
  destruct (removeAllFiles_cases X w) as (w1 & H1 & [-> | ->]).
  - now rewrite H1.
  - rewrite <- H1. apply reload_no_storage. now rewrite H1.
Qed.

Lemma after_binding (X : externals) (c : call) (w : world) :
  same_binding (self w) (self (after X c w)).
Proof.
  destruct c; cbn [after].
  - apply reload_binding.
  - apply reloadInformations_frame.
  - rewrite getFile_keeps_object. apply same_binding_refl.
  - rewrite getFiles_content_keeps_object. apply same_binding_refl.
  - rewrite triggerPassiveMode_keeps_object. apply same_binding_refl.
  - rewrite addFile_keeps_object. apply same_binding_refl.
  - apply removeFile_binding.
  - apply removeAllFiles_binding.
Qed.

(** X1. Whatever sequence of methods is called on an adapter, and whatever
    they return or raise, its names, its address, its owner, its two
    capability flags and its custom properties stay as they were. *)
Theorem binding_is_fixed (X : externals) (cs : list call) (w : world) :
  same_binding (self w) (self (after_all X cs w)).
Proof.
  unfold after_all. revert w.
  induction cs as [|c cs IH]; intros w; cbn [fold_left].
  - apply same_binding_refl.
  - eapply same_binding_trans; [apply (after_binding X c w)|apply IH].
Qed.

(** X2. [getFile], [getFiles], [triggerPassiveMode] and [addFile] change
    no attribute of the adapter at all, the cache included, whether they
    return or raise. *)
Theorem reading_methods_keep_object (X : externals) (w : world) :
  (forall i, self (snd (getFile X i w)) = self w)
  /\ (forall n, self (snd (getFiles_content X n w)) = self w)
  /\ (forall folder, self (snd (triggerPassiveMode X folder w)) = self w)
  /\ (forall filename fileContent,
         self (snd (addFile X filename fileContent w)) = self w).
Proof.
  repeat split; intros.
  - apply getFile_keeps_object.
  - apply getFiles_content_keeps_object.
  - apply triggerPassiveMode_keeps_object.
  - apply addFile_keeps_object.
Qed.

(** ** Adapters without the storage capability *)

Lemma after_no_storage (X : externals) (c : call) (w : world) :
  fileStorage (self w) = false ->
  files (self w) = VList [] ->
  files (self (after X c w)) = VList [].
Proof.
  intros HfS Hl. destruct c; cbn [after].
  - now rewrite reload_no_storage.
  - destruct (reloadInformations_frame X w) as (-> & _). exact Hl.
  - now rewrite getFile_keeps_object.
  - now rewrite getFiles_content_keeps_object.
  - now rewrite triggerPassiveMode_keeps_object.
  - now rewrite addFile_keeps_object.
  - destruct w as [s log]. cbn [self] in *.
    rewrite (removeFile_outside X s log file_id [] Hl); [exact Hl|].
    unfold len. cbn. lia.
  - now rewrite removeAllFiles_no_storage.
Qed.

Lemma after_all_no_storage (X : externals) (cs : list call) :
  forall w,
    fileStorage (self w) = false ->
    files (self w) = VList [] ->
    files (self (after_all X cs w)) = VList [].
Proof.
  unfold after_all.
  induction cs as [|c cs IH]; intros w HfS Hl; cbn [fold_left].
  - exact Hl.
  - apply IH.
    + destruct (after_binding X c w) as (_ & _ & _ & _ & _ & -> & _).
      exact HfS.
    + now apply after_no_storage.
Qed.

(** X3. An adapter constructed without the storage capability has an empty
    cache, and keeps it empty whatever methods are called afterwards (no
    method fills the cache from a metadata port): on such an adapter
    [getFile] and [removeFile] raise [IndexError] for every index, sending
    nothing. *)
Theorem metadata_only_cache_is_empty (X : externals) (name : string)
  (user index : scalar) (meta : bool) (props : option (list prop))
  (testing : scalar) (log : list request) (cs : list call) :
  let w := after_all X cs
             (snd (__init__ X name user index false meta props testing log)) in
  files (self w) = VList []
  /\ (forall i, getFile X i w = (Raise IndexError, w))
  /\ (forall i, removeFile X i w = (Raise IndexError, w)).
Proof.
  intros w.
  assert (Hl : files (self w) = VList []).
  { unfold w. apply after_all_no_storage.
    - unfold __init__.
      match goal with |- context [reload X ?w0] =>
        destruct (reload_binding X w0) as (_ & _ & _ & _ & _ & -> & _)
      end. reflexivity.
    - unfold __init__. now rewrite reload_no_storage. }
  split; [exact Hl|].
  destruct w as [s sent0]. cbn [self] in Hl.
  split; intros i.
  - apply (getFile_outside X s sent0 i [] Hl). unfold len. cbn. lia.
  - apply (removeFile_outside X s sent0 i [] Hl). unfold len. cbn. lia.
Qed.

(** ** Status codes *)

Lemma verify_restatus (f : Z -> Z) (X : externals) :
  verify (restatus f X) = verify X.
Proof. reflexivity. Qed.

Lemma reloadInformations_restatus (f : Z -> Z) (X : externals) (w : world) :
  reloadInformations (restatus f X) w = reloadInformations X w.
Proof.
  unfold reloadInformations, bind, this, update, send, json, get.
  unfold ret, raise.
  cbn [self sent restatus backend FileTransferMode LoginMode loginMode_eq_0].
  rewrite verify_restatus.
  destruct (backend X (sent w) _) as [|r]; [reflexivity|].
  cbn [decoded]. reflexivity.
Qed.

Lemma reload_restatus (f : Z -> Z) (X : externals) (w : world) :
  reload (restatus f X) w = reload X w.
Proof.
  unfold reload, bind, this, update, send, json, get.
  unfold ret, raise. cbn [self sent restatus backend].
  rewrite verify_restatus.
  destruct (fileStorage (self w)).
  - destruct (getFilepath_cases w) as [[root ->] | ->]; [|reflexivity].
    cbn [self sent].
    destruct (backend X (sent w) _) as [|r]; [reflexivity|].
    cbn [decoded].
    destruct (decoded r) as [[d|]|]; try reflexivity.
    cbn [self sent metadata set_files].
    destruct (metadata (self w)); [|reflexivity].
    now rewrite reloadInformations_restatus.
  - destruct (metadata (self w)); [|reflexivity].
    now rewrite reloadInformations_restatus.
Qed.

Lemma getFile_restatus (f : Z -> Z) (X : externals) (i : Z) (w : world) :
  getFile (restatus f X) i w = getFile X i w.
Proof.
  unfold getFile, bind, this, lift, send.
  unfold ret. cbn [self sent restatus backend].
  rewrite verify_restatus.
  destruct (subscript (files (self w)) i) as [file|e]; [|reflexivity].
  destruct (fileStorage (self w)); [|reflexivity].
  destruct (getFilepath_cases w) as [[root ->] | ->]; [|reflexivity].
  cbn [self sent].
  destruct (backend X (sent w) _) as [|r]; reflexivity.
Qed.

(** X4. Synchronization and fetching never look at the status of a reply:
    against a port that answers with other status codes but the same
    bodies, construction, [reload], [reloadInformations] and [getFile] do
    exactly the same, so that the body of an error reply is taken for a
    listing or for the content of the file. *)
Theorem status_is_ignored (f : Z -> Z) (X : externals) (w : world) :
  reload (restatus f X) w = reload X w
  /\ reloadInformations (restatus f X) w = reloadInformations X w
  /\ (forall i, getFile (restatus f X) i w = getFile X i w)
  /\ (forall name user index storage meta props testing log,
         __init__ (restatus f X) name user index storage meta props testing
           log
         = __init__ X name user index storage meta props testing log).
Proof.
  split; [apply reload_restatus|].
  split; [apply reloadInformations_restatus|].
  split; [intros i; apply getFile_restatus|].
  intros. unfold __init__. apply reload_restatus.
Qed.

(** ** The storage root path *)

Lemma drop_last_slash (p : string) :
  endswith_slash p = true -> drop_last p ++ "/" = p.
Proof.
  induction p as [|c r IH]; cbn [endswith_slash drop_last].
  - discriminate.
  - destruct r as [|c' r'].
    + intros H. apply Ascii.eqb_eq in H. now subst c.
    + intros H. cbn [String.append]. f_equal. apply IH. exact H.
Qed.

(** X5. For a string [filepath] property, [getFilepath] removes exactly
    one trailing slash and nothing else: the property is the result
    followed by a slash when it ends in one, and the result itself
    otherwise (so [/] gives the empty root, and [a//] keeps one slash). *)
Theorem getFilepath_strips_one_slash (w : world) (ps : list prop)
  (p : string) :
  customProperties (self w) = Some ps ->
  first_match ps "filepath" = SStr p ->
  exists root,
    getFilepath w = (Ret (SStr root), w)
    /\ (endswith_slash p = true -> p = root ++ "/")
    /\ (endswith_slash p = false -> root = p).
Proof.
  intros Hps Hp. unfold getFilepath, bind.
  rewrite (getProperty_list "filepath" w ps Hps), Hp. cbn [py_str].
  destruct (endswith_slash p) eqn:E.
  - exists (drop_last p). split; [reflexivity|].
    split; [intros _; symmetry; now apply drop_last_slash|discriminate].
  - exists p. split; [reflexivity|]. split; [discriminate|reflexivity].
Qed.

Lemma getFilepath_strips_one_slash_witness :
  let w := fresh (adapter true false (Some sample_properties) (VList [])) in
  customProperties (self w) = Some sample_properties
  /\ first_match sample_properties "filepath" = SStr "/photos/"
  /\ exists root, getFilepath w = (Ret (SStr root), w)
                  /\ "/photos/" = root ++ "/".
Proof.
  intros w. split; [reflexivity|]. split; [reflexivity|].
  destruct (getFilepath_strips_one_slash w sample_properties "/photos/"
              eq_refl eq_refl) as (root & Hrun & Hslash & _).
  exists root. split; [exact Hrun|exact (Hslash eq_refl)].
Defined.

(** ** Fetching with the storage capability *)

(** The request of [getFile] for a file under a root. *)
Lemma getFile_storage_step (X : externals) (s : Service)
  (log : list request) (i : Z) (l : list string) (ps : list prop)
  (file : string) :
  files s = VList l ->
  getitem l i = Some file ->
  fileStorage s = true ->
  customProperties s = Some ps ->
  exists root,
    getFilepath {| self := s; sent := log |}
    = (Ret root, {| self := s; sent := log |})
    /\ let rq := {| rq_verb := GET;
                    rq_url := py_str (portaddress s) ++ "/storage/file";
                    rq_json := Some [("userId", userId s);
                                     ("filepath",
                                      SStr (py_str root ++ "/" ++ file))];
                    rq_data := None; rq_files := None;
                    rq_verify := verify X |} in
       getFile X i {| self := s; sent := log |}
       = match backend X log rq with
         | Answer r =>
             (Ret (content r), {| self := s; sent := (log ++ [rq])%list |})
         | Unreachable =>
             (Raise ConnectionError,
              {| self := s; sent := (log ++ [rq])%list |})
         end.
Proof.
  intros Hl Hfile HfS Hps.
  destruct (getFilepath_list {| self := s; sent := log |} ps Hps)
    as [root Hroot].
  exists root. split; [exact Hroot|].
  unfold getFile, bind, this, lift, ret, subscript, send. cbn [self sent].
  rewrite Hl, Hfile, HfS, Hroot. cbn [self sent].
  destruct (backend X log _); reflexivity.
Qed.

(** X6. With the storage capability, [getFile] at an index inside the
    cache sends exactly one request, a GET of [<address>/storage/file]
    whose body names the owner and the path [<root>/<entry>], and returns
    the body of the reply whatever its status; if the port cannot be
    reached it raises. When the properties have no [filepath], the root is
    [None] and the path sent is [None/<entry>]. *)
Theorem getFile_fetches (X : externals) (s : Service) (log : list request)
  (i : Z) (l : list string) (ps : list prop) (file : string) :
  files s = VList l ->
  getitem l i = Some file ->
  fileStorage s = true ->
  customProperties s = Some ps ->
  let w := {| self := s; sent := log |} in
  exists root rq,
    fst (getFilepath w) = Ret root
    /\ rq_verb rq = GET
    /\ rq_url rq = py_str (portaddress s) ++ "/storage/file"
    /\ rq_json rq = Some [("userId", userId s);
                          ("filepath", SStr (py_str root ++ "/" ++ file))]
    /\ sent (snd (getFile X i w)) = (log ++ [rq])%list
    /\ (forall r, backend X log rq = Answer r ->
                  fst (getFile X i w) = Ret (content r))
    /\ (backend X log rq = Unreachable ->
        fst (getFile X i w) = Raise ConnectionError)
    /\ ((forall q, In q ps -> prop_key q <> "filepath") ->
        py_str root ++ "/" ++ file = "None/" ++ file).
Proof.
  intros Hl Hfile HfS Hps w.
  destruct (getFile_storage_step X s log i l ps file Hl Hfile HfS Hps)
    as (root & Hroot & Hrun).
  cbn zeta in Hrun. exists root.
  match type of Hrun with context [backend X log ?q] => exists q end.
  split; [unfold w; now rewrite Hroot|].
  split; [reflexivity|]. split; [reflexivity|]. split; [reflexivity|].
  unfold w. rewrite Hrun.
  split; [destruct (backend X log _); reflexivity|].
  split; [intros r ->; reflexivity|].
  split; [intros ->; reflexivity|].
  intros Habs.
  assert (Hnone : root = SNone).
  { unfold getFilepath, bind in Hroot.
    rewrite (getProperty_list "filepath" {| self := s; sent := log |} ps
               Hps) in Hroot.
    rewrite (first_match_absent ps "filepath" Habs) in Hroot.
    cbn in Hroot. now injection Hroot as <-. }
  now rewrite Hnone.
Qed.

Lemma getFile_fetches_witness :
  let X := externals_with (port_status 404) in
  let s := adapter true false (Some sample_properties)
             (VList ["a.txt"; "b.txt"]) in
  files s = VList ["a.txt"; "b.txt"]
  /\ getitem ["a.txt"; "b.txt"] 1 = Some "b.txt"
  /\ fileStorage s = true
  /\ customProperties s = Some sample_properties
  /\ exists rq, sent (snd (getFile X 1 (fresh s))) = [rq]
                /\ rq_json rq = Some [("userId", SStr "admin");
                                      ("filepath", SStr "/photos/b.txt")]
                /\ fst (getFile X 1 (fresh s)) = Ret [].
Proof.
  intros X s. repeat (split; [reflexivity|]).
  destruct (getFile_fetches X s [] 1 ["a.txt"; "b.txt"] sample_properties
              "b.txt" eq_refl eq_refl eq_refl eq_refl)
    as (root & rq & Hroot & _ & _ & Hjson & Hsent & Hret & _).
  cbn in Hroot. injection Hroot as <-.
  exists rq. split; [exact Hsent|]. split; [exact Hjson|].
  exact (Hret (plain 404) eq_refl).
Defined.

(** ** Enumeration with content *)

Lemma len_app {A : Type} (l1 l2 : list A) : len (l1 ++ l2) = len l1 + len l2.
Proof. unfold len. rewrite length_app. lia. Qed.

Lemma getitem_middle {A : Type} (pre : list A) (x : A) (post : list A) :
  getitem (pre ++ x :: post) (len pre) = Some x.
Proof.
  unfold getitem. rewrite position_inside.
  - destruct (Z.leb_spec 0 (len pre)) as [_|H]; [|unfold len in H; lia].
    unfold len at 1. rewrite Nat2Z.id.
    rewrite nth_error_app2 by lia. now rewrite Nat.sub_diag.
  - rewrite len_app. unfold len. cbn [List.length]. lia.
Qed.

Lemma getFiles_from_storage (X : externals) (s : Service) (l : list string)
  (ps : list prop) :
  files s = VList l ->
  fileStorage s = true ->
  customProperties s = Some ps ->
  forall (items pre post : list string) (log : list request),
    l = (pre ++ items ++ post)%list ->
    let run := getFiles_from X items (len pre) {| self := s; sent := log |} in
    let got := fst (fst run) in
    let stop := snd (fst run) in
    self (snd run) = s
    /\ (exists rqs,
           sent (snd run) = (log ++ rqs)%list
           /\ Forall (storage_fetch s) rqs
           /\ ((stop = None /\ map fst got = items
                /\ List.length rqs = List.length items)
               \/ (stop = Some ConnectionError
                   /\ (exists file rest,
                          items = (map fst got ++ file :: rest)%list)
                   /\ List.length rqs = S (List.length got))))
    /\ (responsive X -> stop = None).
Proof.
  intros Hl HfS Hps items.
  induction items as [|file rest IH]; intros pre post log Hsplit;
    cbn [getFiles_from].
  - cbn [fst snd self sent]. split; [reflexivity|].
    split; [|reflexivity].
    exists []. rewrite app_nil_r. split; [reflexivity|].
    split; [constructor|]. left. repeat split.
  - assert (Hfile : getitem l (len pre) = Some file).
    { rewrite Hsplit. cbn [app]. apply getitem_middle. }
    destruct (getFile_storage_step X s log (len pre) l ps file
                Hl Hfile HfS Hps) as (root & _ & Hrun).
    cbn zeta in Hrun. rewrite Hrun.
    match goal with |- context [backend X log ?q] =>
      set (rq := q) in *; destruct (backend X log rq) as [|r] eqn:Hr
    end.
    + cbn [fst snd self sent]. split; [reflexivity|]. split.
      * exists [rq]. split; [reflexivity|].
        split; [constructor; [split; reflexivity|constructor]|].
        right. split; [reflexivity|]. split; [|reflexivity].
        exists file, rest. reflexivity.
      * intros HX. exfalso. exact (HX _ _ Hr).
    + assert (Hsplit' : l = ((pre ++ [file]) ++ rest ++ post)%list)
        by (rewrite Hsplit, <- app_assoc; reflexivity).
      specialize (IH (pre ++ [file])%list post (log ++ [rq])%list Hsplit').
      rewrite len_app in IH. change (len [file]) with 1 in IH.
      destruct (getFiles_from X rest (len pre + 1)
                  {| self := s; sent := (log ++ [rq])%list |})
        as [[more stop'] w''].
      cbn [fst snd] in *.
      destruct IH as (Hself & (rqs & Hsent & Hall & Hcases) & Hresp).
      split; [exact Hself|]. split; [|exact Hresp].
      exists (rq :: rqs). split; [rewrite Hsent, <- app_assoc; reflexivity|].
      split; [constructor; [split; reflexivity|exact Hall]|].
      destruct Hcases as [(Hs & Hm & Hn) | (Hs & (f & rs & Hi) & Hn)].
      * left. cbn [map fst List.length]. now rewrite Hm, Hn.
      * right. split; [exact Hs|]. split.
        -- exists f, rs. cbn [map fst app]. now rewrite Hi.
        -- cbn [List.length]. now rewrite Hn.
Qed.

(** X7. With the storage capability, [getFiles] with content, consumed for
    [n] items, fetches one file per item consumed and nothing more: the
    items come in cache order, each after one GET of
    [<address>/storage/file], so that [min n (len cache)] requests are sent
    when all goes well. When the port cannot be reached for some file, the
    items before it have been yielded, the failing request is the last one
    sent and [ConnectionError] ends the enumeration. The adapter is
    unchanged in every case. *)
Theorem getFiles_content_is_lazy (X : externals) (s : Service)
  (log : list request) (n : nat) (l : list string) (ps : list prop) :
  files s = VList l ->
  fileStorage s = true ->
  customProperties s = Some ps ->
  let run := getFiles_content X n {| self := s; sent := log |} in
  let got := fst (fst run) in
  let stop := snd (fst run) in
  self (snd run) = s
  /\ (exists rqs,
         sent (snd run) = (log ++ rqs)%list
         /\ Forall (storage_fetch s) rqs
         /\ ((stop = None /\ map fst got = firstn n l
              /\ List.length rqs = Nat.min n (List.length l))
             \/ (stop = Some ConnectionError
                 /\ (exists file rest,
                        firstn n l = (map fst got ++ file :: rest)%list)
                 /\ List.length rqs = S (List.length got))))
  /\ (responsive X -> stop = None).
Proof.
  intros Hl HfS Hps. unfold getFiles_content. cbn [self].
  destruct n as [|k].
  - cbn [fst snd self sent firstn]. split; [reflexivity|].
    split; [|reflexivity].
    exists []. rewrite app_nil_r. split; [reflexivity|].
    split; [constructor|]. left. repeat split.
  - rewrite Hl. cbn [iterate].
    assert (Hsplit : l = ([] ++ firstn (S k) l ++ skipn (S k) l)%list)
      by (cbn [app]; now rewrite firstn_skipn).
    pose proof (getFiles_from_storage X s l ps Hl HfS Hps
                  (firstn (S k) l) [] (skipn (S k) l) log Hsplit) as H.
    change (len (@nil string)) with 0 in H. cbn zeta in H.
    rewrite length_firstn in H. exact H.
Qed.

Lemma getFiles_content_is_lazy_witness :
  let X := externals_with (port_status 200) in
  let s := adapter true false (Some sample_properties)
             (VList ["a.txt"; "b.txt"; "c.txt"]) in
  files s = VList ["a.txt"; "b.txt"; "c.txt"]
  /\ fileStorage s = true
  /\ customProperties s = Some sample_properties
  /\ responsive X
  /\ map fst (fst (fst (getFiles_content X 2 (fresh s)))) = ["a.txt"; "b.txt"]
  /\ List.length (sent (snd (getFiles_content X 2 (fresh s)))) = 2%nat.
Proof.
  intros X s.
  assert (HX : responsive X) by (intros log rq; discriminate).
  repeat (split; [reflexivity|]). split; [exact HX|].
  destruct (getFiles_content_is_lazy X s [] 2
              ["a.txt"; "b.txt"; "c.txt"] sample_properties
              eq_refl eq_refl eq_refl)
    as (_ & (rqs & Hsent & _ & Hcases) & Hstop).
  specialize (Hstop HX).
  destruct Hcases as [(_ & Hm & Hn) | (Hs & _)].
  - split; [exact Hm|]. unfold fresh. rewrite Hsent. exact Hn.
  - rewrite Hstop in Hs. discriminate.
Defined.

Lemma getFiles_from_no_storage (X : externals) (s : Service)
  (l : list string) :
  files s = VList l ->
  fileStorage s = false ->
  forall (items pre post : list string) (log : list request),
    l = (pre ++ items ++ post)%list ->
    getFiles_from X items (len pre) {| self := s; sent := log |}
    = ((map (fun file => (file, [])) items, None),
       {| self := s; sent := log |}).
Proof.
  intros Hl HfS items.
  induction items as [|file rest IH]; intros pre post log Hsplit;
    cbn [getFiles_from map].
  - reflexivity.
  - assert (Hfile : getitem l (len pre) = Some file).
    { rewrite Hsplit. cbn [app]. apply getitem_middle. }
    assert (Hrun : getFile X (len pre) {| self := s; sent := log |}
                   = (Ret [], {| self := s; sent := log |})).
    { unfold getFile, bind, this, lift, ret, subscript. cbn [self].
      now rewrite Hl, Hfile, HfS. }
    rewrite Hrun.
    assert (Hsplit' : l = ((pre ++ [file]) ++ rest ++ post)%list)
      by (rewrite Hsplit, <- app_assoc; reflexivity).
    specialize (IH (pre ++ [file])%list post log Hsplit').
    rewrite len_app in IH. change (len [file]) with 1 in IH.
    now rewrite IH.
Qed.

(** X8. Without the storage capability, [getFiles] with content yields
    every cached entry with an empty content, in cache order, and sends
    nothing. *)
Theorem getFiles_content_without_storage (X : externals) (s : Service)
  (log : list request) (n : nat) (l : list string) :
  files s = VList l ->
  fileStorage s = false ->
  getFiles_content X n {| self := s; sent := log |}
  = ((map (fun file => (file, [])) (firstn n l), None),
     {| self := s; sent := log |}).
Proof.
  intros Hl HfS. unfold getFiles_content. cbn [self].
  destruct n as [|k]; [reflexivity|].
  rewrite Hl. cbn [iterate].
  assert (Hsplit : l = ([] ++ firstn (S k) l ++ skipn (S k) l)%list)
    by (cbn [app]; now rewrite firstn_skipn).
  exact (getFiles_from_no_storage X s l Hl HfS
           (firstn (S k) l) [] (skipn (S k) l) log Hsplit).
Qed.

Lemma getFiles_content_without_storage_witness :
  let X := externals_with port_down in
  let s := adapter false true None (VList ["a.txt"; "b.txt"]) in
  files s = VList ["a.txt"; "b.txt"]
  /\ fileStorage s = false
  /\ getFiles_content X 5 (fresh s)
     = (([("a.txt", []); ("b.txt", [])], None), fresh s).
Proof.
  intros X s. repeat (split; [reflexivity|]).
  exact (getFiles_content_without_storage X s [] 5 ["a.txt"; "b.txt"]
           eq_refl eq_refl).
Defined.

(** ** Equality *)

Lemma dict_eqb_eq (a b : string * list string) :
  dict_eqb a b = true <-> a = b.
Proof.
  unfold dict_eqb. destruct a as [n1 l1], b as [n2 l2]. cbn [fst snd].
  destruct (String.eqb_spec n1 n2) as [En|En];
    destruct (list_eq_dec string_dec l1 l2) as [El|El]; cbn;
    split; intros H; try discriminate; try congruence.
Qed.

Lemma getDict_iterate (s : Service) (log : list request) :
  fst (getDict {| self := s; sent := log |})
  = match iterate (files s) with
    | Ret l => Ret (servicename s, l)
    | Raise e => Raise e
    end.
Proof.
  unfold getDict, getFiles, bind, this, lift, ret. cbn [self].
  destruct (iterate (files s)); reflexivity.
Qed.

Lemma iterate_raises (v : value) (e : exn) :
  iterate v = Raise e -> e = TypeError.
Proof. destruct v; cbn; intros H; congruence. Qed.

Lemma eq_unfold (s o : Service) :
  __eq__ s (Some o)
  = match iterate (files s), iterate (files o) with
    | Ret l1, Ret l2 => Ret (dict_eqb (servicename s, l1) (servicename o, l2))
    | Raise e, _ => Raise e
    | Ret _, Raise e => Raise e
    end.
Proof.
  unfold __eq__, fresh. rewrite !getDict_iterate.
  destruct (iterate (files s)); destruct (iterate (files o)); reflexivity.
Qed.

(** X9. Equality of adapters looks at the service name and at the entries
    of the cache only: adapters that agree on these are equal whatever
    their capabilities, properties, address or owner. It is symmetric, and
    transitive, and reflexive on an adapter whose cache can be enumerated;
    an adapter whose cache is [None] is not equal to itself: the comparison
    raises [TypeError]. *)
Theorem eq_is_shallow (s o u : Service) :
  __eq__ s (Some o) = __eq__ o (Some s)
  /\ (__eq__ s (Some o) = Ret true -> __eq__ o (Some u) = Ret true ->
      __eq__ s (Some u) = Ret true)
  /\ (forall l, iterate (files s) = Ret l ->
                servicename o = servicename s ->
                iterate (files o) = Ret l ->
                __eq__ s (Some o) = Ret true)
  /\ (forall l, iterate (files s) = Ret l -> __eq__ s (Some s) = Ret true)
  /\ (files s = VNone -> __eq__ s (Some s) = Raise TypeError).
Proof.
  rewrite !eq_unfold.
  split; [|split; [|split; [|split]]].
  - destruct (iterate (files s)) as [l1|e1] eqn:E1;
      destruct (iterate (files o)) as [l2|e2] eqn:E2;
      try reflexivity.
    + f_equal.
      destruct (dict_eqb (servicename s, l1) (servicename o, l2)) eqn:A;
        destruct (dict_eqb (servicename o, l2) (servicename s, l1)) eqn:B;
        try reflexivity.
      * apply dict_eqb_eq in A. symmetry in A. apply dict_eqb_eq in A.
        congruence.
      * apply dict_eqb_eq in B. symmetry in B. apply dict_eqb_eq in B.
        congruence.
    + apply iterate_raises in E1. apply iterate_raises in E2. congruence.
  - destruct (iterate (files s)) as [l1|e1]; [|discriminate].
    destruct (iterate (files o)) as [l2|e2]; [|discriminate].
    destruct (iterate (files u)) as [l3|e3]; [|discriminate].
    intros A B. injection A as A. injection B as B.
    apply dict_eqb_eq in A. apply dict_eqb_eq in B.
    f_equal. apply dict_eqb_eq. congruence.
  - intros l Hs Hn Ho. rewrite Hs, Ho, Hn. f_equal. now apply dict_eqb_eq.
  - intros l Hs. rewrite Hs. f_equal. now apply dict_eqb_eq.
  - intros Hn. now rewrite Hn.
Qed.

Lemma eq_is_shallow_witness :
  let s := adapter true false (Some sample_properties) (VList ["a.txt"]) in
  let o := adapter false true None (VList ["a.txt"]) in
  let broken := adapter true false (Some sample_properties) VNone in
  iterate (files s) = Ret ["a.txt"]
  /\ servicename o = servicename s
  /\ iterate (files o) = Ret ["a.txt"]
  /\ files broken = VNone
  /\ __eq__ s (Some o) = Ret true
  /\ __eq__ o (Some s) = Ret true
  /\ __eq__ s (Some s) = Ret true
  /\ __eq__ broken (Some broken) = Raise TypeError.
Proof.
  intros s o broken.
  do 4 (split; [reflexivity|]).
  destruct (eq_is_shallow s o s) as (Hsym & Htrans & Hsh & _ & _).
  destruct (eq_is_shallow broken broken broken) as (_ & _ & _ & _ & Hbr).
  assert (Hso : __eq__ s (Some o) = Ret true)
    by exact (Hsh ["a.txt"] eq_refl eq_refl eq_refl).
  assert (Hos : __eq__ o (Some s) = Ret true) by (now rewrite <- Hsym).
  split; [exact Hso|]. split; [exact Hos|].
  split; [exact (Htrans Hso Hos)|exact (Hbr eq_refl)].
Defined.

(** ** Construction from a descriptor *)

Lemma fromDict_loop_app (ps qs : list descriptor_property) :
  forall acc,
    fromDict_loop (ps ++ qs) acc = fromDict_loop qs (fromDict_loop ps acc).
Proof.
  induction ps as [|p ps IH]; intros [[meta storage] custom]; cbn.
  - reflexivity.
  - apply IH.
Qed.

Lemma fromDict_loop_other (tag : string) (qs : list descriptor_property) :
  (forall q, In q qs -> portType q <> tag) ->
  forall acc,
    (tag = "metadata" ->
     fst (fst (fromDict_loop qs acc)) = fst (fst acc))
    /\ (tag = "fileStorage" ->
        snd (fst (fromDict_loop qs acc)) = snd (fst acc))
    /\ (tag = "customProperties" ->
        snd (fromDict_loop qs acc) = snd acc).
Proof.
  induction qs as [|q qs IH]; intros Hqs [[meta storage] custom].
  - cbn. repeat split.
  - assert (Hq : portType q <> tag) by (apply Hqs; now left).
    assert (Hrest : forall r, In r qs -> portType r <> tag)
      by (intros r Hr; apply Hqs; now right).
    cbn [fromDict_loop].
    destruct (String.eqb_spec (portType q) "metadata") as [E1|E1];
      [|destruct (String.eqb_spec (portType q) "fileStorage") as [E2|E2];
        [|destruct (String.eqb_spec (portType q) "customProperties")
            as [E3|E3]]];
      destruct (IH Hrest) with (acc := (meta, storage, custom)) as (A & B & C);
      match goal with
      | |- context [fromDict_loop qs ?acc'] =>
          destruct (IH Hrest acc') as (A' & B' & C')
      end;
      cbn [fst snd] in *;
      (split; [|split]); intros ->;
      solve [congruence | auto].
Qed.

(** X10. In a descriptor, the last property of each of the types
    [metadata], [fileStorage] and [customProperties] decides the
    corresponding argument of the constructor, whatever stands before it. *)
Theorem fromDict_last_wins (X : externals) (d : descriptor)
  (user index testing : scalar) (log : list request)
  (pre post : list descriptor_property) (p : descriptor_property) :
  descriptor_properties d = (pre ++ p :: post)%list ->
  (forall q, In q post -> portType q <> portType p) ->
  let s := self (snd (fromDict X d user index testing log)) in
  (portType p = "metadata" -> metadata s = truth (setting_value p))
  /\ (portType p = "fileStorage" -> fileStorage s = truth (setting_value p))
  /\ (portType p = "customProperties" ->
      customProperties s = as_properties (Some (setting_value p))).
Proof.
  intros Hd Hpost s. unfold s, fromDict. rewrite Hd, fromDict_loop_app.
  destruct (fromDict_loop pre (Flag false, Flag false, None))
    as [[meta0 storage0] custom0].
  cbn [fromDict_loop].
  match goal with |- context [fromDict_loop post ?acc'] =>
    destruct (fromDict_loop_other (portType p) post Hpost acc')
      as (A & B & C);
    destruct (fromDict_loop post acc') as [[meta storage] custom] eqn:E
  end.
  cbn [fst snd] in *.
  unfold __init__.
  match goal with |- context [reload X ?w0] =>
    destruct (reload_binding X w0) as (_ & _ & _ & _ & _ & Hs & Hm & Hc)
  end.
  cbn [self fileStorage metadata customProperties] in Hs, Hm, Hc.
  rewrite Hs, Hm, Hc.
  split; [|split]; intros Htag.
  - rewrite (A Htag), Htag. reflexivity.
  - rewrite (B Htag), Htag. reflexivity.
  - rewrite (C Htag), Htag. reflexivity.
Qed.

Lemma fromDict_last_wins_witness :
  let X := externals_with port_down in
  descriptor_properties sample_descriptor
  = ([ {| portType := "metadata"; setting_value := Flag true |};
       {| portType := "color"; setting_value := Flag true |} ]
     ++ {| portType := "metadata"; setting_value := Flag false |} :: [])%list
  /\ (forall q, In q [] -> portType q <> "metadata")
  /\ metadata (self (snd (fromDict X sample_descriptor SNone SNone
                            (SBool false) [])))
     = false.
Proof.
  intros X. split; [reflexivity|].
  assert (Hpost : forall q : descriptor_property,
             In q [] -> portType q <> "metadata") by (intros q []).
  split; [exact Hpost|].
  destruct (fromDict_last_wins X sample_descriptor SNone SNone (SBool false)
              []
              [ {| portType := "metadata"; setting_value := Flag true |};
                {| portType := "color"; setting_value := Flag true |} ]
              []
              {| portType := "metadata"; setting_value := Flag false |}
              eq_refl Hpost) as (Hm & _ & _).
  exact (Hm eq_refl).
Defined.

Lemma fromDict_loop_known (ps : list descriptor_property) :
  forall acc, fromDict_loop (filter known ps) acc = fromDict_loop ps acc.
Proof.
  induction ps as [|p ps IH]; intros [[meta storage] custom];
    cbn [filter fromDict_loop]; [reflexivity|].
  unfold known.
  destruct (String.eqb (portType p) "metadata") eqn:E1;
    [cbn [orb fromDict_loop]; rewrite E1; apply IH|].
  destruct (String.eqb (portType p) "fileStorage") eqn:E2;
    [cbn [orb fromDict_loop]; rewrite E1, E2; apply IH|].
  destruct (String.eqb (portType p) "customProperties") eqn:E3;
    [cbn [orb fromDict_loop]; rewrite E1, E2, E3; apply IH|].
  cbn [orb]. apply IH.
Qed.

(** X11. [fromDict] ignores the properties of any other type: the
    descriptor without them gives the same construction. A descriptor with
    no property of the three types gives an adapter without capabilities
    and without custom properties, constructed without a request. *)
Theorem fromDict_ignores_unknown (X : externals) (d : descriptor)
  (user index testing : scalar) (log : list request) :
  fromDict X d user index testing log
  = fromDict X {| descriptor_port := descriptor_port d;
                  descriptor_properties :=
                    filter known (descriptor_properties d) |}
      user index testing log
  /\ (filter known (descriptor_properties d) = [] ->
      let run := fromDict X d user index testing log in
      fst run = Ret tt
      /\ sent (snd run) = log
      /\ fileStorage (self (snd run)) = false
      /\ metadata (self (snd run)) = false
      /\ customProperties (self (snd run)) = None
      /\ files (self (snd run)) = VList []).
Proof.
  assert (Hsame : fromDict X d user index testing log
                  = fromDict X {| descriptor_port := descriptor_port d;
                                  descriptor_properties :=
                                    filter known (descriptor_properties d) |}
                      user index testing log).
  { unfold fromDict. cbn [descriptor_port descriptor_properties].
    now rewrite fromDict_loop_known. }
  split; [exact Hsame|].
  intros Hnone. cbn zeta. rewrite Hsame. unfold fromDict.
  cbn [descriptor_port descriptor_properties]. rewrite Hnone.
  cbn. repeat split.
Qed.

Lemma fromDict_ignores_unknown_witness :
  let X := externals_with port_down in
  let d := {| descriptor_port := "Owncloud";
              descriptor_properties :=
                [ {| portType := "color"; setting_value := Flag true |} ] |} in
  filter known (descriptor_properties d) = []
  /\ fst (fromDict X d SNone SNone (SBool false) []) = Ret tt
  /\ metadata (self (snd (fromDict X d SNone SNone (SBool false) [])))
     = false.
Proof.
  intros X d. split; [reflexivity|].
  destruct (fromDict_ignores_unknown X d SNone SNone (SBool false) [])
    as (_ & H).
  destruct (H eq_refl) as (Hret & _ & _ & Hm & _).
  split; [exact Hret|exact Hm].
Defined.

Lemma reloadInformations_request (X : externals) (w : world) :
  exists rq,
    sent (snd (reloadInformations X w)) = (sent w ++ [rq])%list
    /\ synchronizes (portaddress (self w)) rq.
Proof.
  unfold reloadInformations, bind, this, update, send, json, get.
  unfold ret, raise. cbn [self sent].
  split_cases; cbn [fst snd self sent]; eexists;
    (split; [reflexivity|]); (split; [reflexivity|right; reflexivity]).
Qed.

(** The requests of [reload]: at most the listing and the informations, of
    the port at the adapter's address. *)
Lemma reload_requests (X : externals) (w : world) :
  exists rqs,
    sent (snd (reload X w)) = (sent w ++ rqs)%list
    /\ Forall (synchronizes (portaddress (self w))) rqs.
Proof.
  unfold reload, bind, this, update, json, get.
  unfold ret, raise. cbn [self sent].
  assert (Hnone : forall w0 : world,
             exists rqs, sent w0 = (sent w0 ++ rqs)%list
                         /\ Forall (synchronizes (portaddress (self w))) rqs).
  { intros w0. exists []. now rewrite app_nil_r. }
  destruct (fileStorage (self w)).
  - destruct (getFilepath_cases w) as [[root ->] | ->]; [|apply Hnone].
    unfold send. cbn [self sent].
    match goal with |- context [backend X (sent w) ?q] =>
      set (rq := q);
      assert (Hrq : synchronizes (portaddress (self w)) rq)
        by (split; [reflexivity|left; reflexivity]);
      destruct (backend X (sent w) rq) as [|r]
    end.
    + exists [rq]. split; [reflexivity|]. now constructor.
    + destruct (decoded r) as [[d|]|]; cbn [fst snd self sent];
        try (exists [rq]; split; [reflexivity|now constructor]).
      destruct (metadata (set_files (member d "files" VNone) (self w))).
      * match goal with |- context [reloadInformations X ?w1] =>
          destruct (reloadInformations_request X w1) as (rq2 & Hs & H2);
          destruct (reloadInformations X w1) as [[[]|e] w2]
        end; cbn [fst snd self sent portaddress set_files] in *;
          exists [rq; rq2]; (split; [now rewrite Hs, <- app_assoc|]);
          (constructor; [exact Hrq|constructor; [exact H2|constructor]]).
      * exists [rq]. split; [reflexivity|now constructor].
  - destruct (metadata (self w)); [|apply Hnone].
    destruct (reloadInformations_request X w) as (rq2 & Hs & H2).
    destruct (reloadInformations X w) as [[[]|e] w2];
      cbn [fst snd] in *; exists [rq2]; (split; [exact Hs|]);
      now constructor.
Qed.

(** X12. [fromDict] called without a testing address hands [None] to the
    constructor, which takes anything but [False] for an address: the
    adapter's address is [None], not the one derived from the port name,
    and every request of the construction goes to a URL that starts with
    [None/]. *)
Theorem fromDict_default_address (X : externals) (d : descriptor)
  (user index : scalar) (log : list request) :
  let run := fromDict X d user index SNone log in
  portaddress (self (snd run)) = SNone
  /\ exists rqs,
       sent (snd run) = (log ++ rqs)%list
       /\ Forall (fun rq => rq_url rq = "None/storage/folder"
                            \/ rq_url rq = "None/metadata/informations") rqs.
Proof.
  intros run. unfold run, fromDict.
  destruct (fromDict_loop (descriptor_properties d)
              (Flag false, Flag false, None)) as [[meta storage] custom].
  unfold __init__.
  match goal with |- context [reload X ?w0] =>
    destruct (reload_binding X w0) as (_ & Ha & _);
    destruct (reload_requests X w0) as (rqs & Hs & Hall)
  end.
  cbn [self sent portaddress] in Ha, Hs, Hall.
  split; [exact Ha|].
  exists rqs. split; [exact Hs|].
  apply (Forall_impl _ (P := synchronizes SNone)); [|exact Hall].
  intros rq (_ & Hurl). exact Hurl.
Qed.

(** X13. A descriptor that enables the storage capability and has no
    [customProperties] entry cannot be constructed: looking up the root
    path raises [TypeError] before any request is sent. *)
Theorem fromDict_storage_needs_properties (X : externals) (d : descriptor)
  (user index testing : scalar) (log : list request)
  (pre post : list descriptor_property) (p : descriptor_property) :
  descriptor_properties d = (pre ++ p :: post)%list ->
  portType p = "fileStorage" ->
  truth (setting_value p) = true ->
  (forall q, In q post -> portType q <> "fileStorage") ->
  (forall q, In q (descriptor_properties d) ->
             portType q <> "customProperties") ->
  let run := fromDict X d user index testing log in
  fst run = Raise TypeError /\ sent (snd run) = log.
Proof.
  intros Hd Htag Htrue Hpost Hcustom run. unfold run, fromDict.
  destruct (fromDict_loop_other "customProperties"
              (descriptor_properties d) Hcustom
              (Flag false, Flag false, None)) as (_ & _ & C).
  specialize (C eq_refl). cbn [snd] in C.
  rewrite Hd in *. rewrite fromDict_loop_app in *.
  destruct (fromDict_loop pre (Flag false, Flag false, None))
    as [[meta0 storage0] custom0].
  cbn [fromDict_loop] in *. rewrite Htag in *.
  change (("fileStorage" =? "metadata")%string) with false in *.
  change (("fileStorage" =? "fileStorage")%string) with true in *.
  cbn iota in *.
  destruct (fromDict_loop_other "fileStorage" post Hpost
              (meta0, setting_value p, custom0)) as (_ & B & _).
  specialize (B eq_refl). cbn [fst snd] in B.
  destruct (fromDict_loop post (meta0, setting_value p, custom0))
    as [[meta storage] custom].
  cbn [fst snd] in *. subst storage custom. rewrite Htrue.
  cbn. split; reflexivity.
Qed.

Lemma fromDict_storage_needs_properties_witness :
  let X := externals_with (port_lists ["a.txt"]) in
  let p := {| portType := "fileStorage"; setting_value := Flag true |} in
  let d := {| descriptor_port := "Owncloud";
              descriptor_properties := [p] |} in
  descriptor_properties d = ([] ++ p :: [])%list
  /\ portType p = "fileStorage"
  /\ truth (setting_value p) = true
  /\ fst (fromDict X d SNone SNone (SBool false) []) = Raise TypeError
  /\ sent (snd (fromDict X d SNone SNone (SBool false) [])) = [].
Proof.
  intros X p d. do 3 (split; [reflexivity|]).
  assert (Hpost : forall q : descriptor_property,
             In q [] -> portType q <> "fileStorage") by (intros q []).
  assert (Hcustom : forall q, In q (descriptor_properties d) ->
                              portType q <> "customProperties").
  { intros q [<-|[]]. discriminate. }
  exact (fromDict_storage_needs_properties X d SNone SNone (SBool false) []
           [] [] p eq_refl eq_refl eq_refl Hpost Hcustom).
Defined.

(** ** The requests of remove file *)

(** X14. With both capabilities, [removeFile] at an index inside the cache
    sends two DELETE requests when the port answers: one of
    [<address>/storage/file], whose body names the owner and the path
    [<root>/<entry>], and then one of
    [<address>/metadata/project/<projectId>/files/<index>], with the index
    as it was given (a negative one included) and with the very same body,
    path included. *)
Theorem removeFile_requests (X : externals) (s : Service)
  (log : list request) (i : Z) (l : list string) (ps : list prop)
  (file : string) :
  files s = VList l ->
  getitem l i = Some file ->
  fileStorage s = true ->
  metadata s = true ->
  customProperties s = Some ps ->
  responsive X ->
  let w := {| self := s; sent := log |} in
  exists root,
    fst (getFilepath w) = Ret root
    /\ let body := [("userId", userId s);
                    ("filepath", SStr (py_str root ++ "/" ++ file))] in
       sent (snd (removeFile X i w))
       = (log ++
          [ {| rq_verb := DELETE;
               rq_url := py_str (portaddress s) ++ "/storage/file";
               rq_json := Some body; rq_data := None; rq_files := None;
               rq_verify := verify X |};
            {| rq_verb := DELETE;
               rq_url := py_str (portaddress s) ++ "/metadata/project/"
                         ++ py_str (first_match ps "projectId")
                         ++ "/files/" ++ py_str (SInt i);
               rq_json := Some body; rq_data := None; rq_files := None;
               rq_verify := verify X |} ])%list.
Proof.
  intros Hl Hfile HfS Hmd Hps HX w.
  destruct (getFilepath_list w ps Hps) as [root Hroot].
  exists root. split; [now rewrite Hroot|].
  unfold removeFile, getProjectId, bind, this, lift, ret, update, delete,
    subscript.
  unfold w in *. cbn [self sent]. rewrite Hl, Hfile, HfS, Hmd, Hroot.
  match goal with |- context [send X ?rq ?w0] =>
    destruct (send_answered X rq w0 HX) as [r1 [_ ->]] end.
  cbn [self sent fst snd].
  match goal with |- context [getProperty ?k ?w0] =>
    rewrite (getProperty_list k w0 ps Hps) end.
  match goal with |- context [send X ?rq ?w0] =>
    destruct (send_answered X rq w0 HX) as [r2 [_ ->]] end.
  cbn [self sent fst snd app].
  destruct (status_code r2 <? 300); [|destruct (status_code r1 <? 300)];
    cbn [self sent]; rewrite ?Hl;
    try (destruct (delitem l i); cbn [fst snd self sent]);
    now rewrite <- app_assoc.
Qed.

Lemma removeFile_requests_witness :
  let X := externals_with (port_status 204) in
  let s := adapter true true (Some sample_properties)
             (VList ["a.txt"; "b.txt"]) in
  files s = VList ["a.txt"; "b.txt"]
  /\ getitem ["a.txt"; "b.txt"] (-1) = Some "b.txt"
  /\ fileStorage s = true
  /\ metadata s = true
  /\ customProperties s = Some sample_properties
  /\ responsive X
  /\ map rq_url (sent (snd (removeFile X (-1) (fresh s))))
     = ["http://circle1-port-owncloud/storage/file";
        "http://circle1-port-owncloud/metadata/project/7/files/-1"].
Proof.
  intros X s.
  assert (HX : responsive X) by (intros log rq; discriminate).
  do 5 (split; [reflexivity|]). split; [exact HX|].
  destruct (removeFile_requests X s [] (-1) ["a.txt"; "b.txt"]
              sample_properties "b.txt"
              eq_refl eq_refl eq_refl eq_refl eq_refl HX)
    as (root & _ & Hsent).
  cbn zeta in Hsent. unfold fresh. rewrite Hsent. reflexivity.
Defined.

(** ** The settings of the metadata port *)

(** X15. [reloadInformations] takes the settings from a reply that is an
    object one after the other, each with its default when the member is
    missing: [zipForFolder] is true exactly when [fileTransferArchive] is
    the string [zip]; the transfer mode (default 0) and the login mode
    (default 1) are stored when they name a member of their enumeration;
    the credentials (default: the empty dictionary) are stored only when
    the login mode equals 0. A value that names no member raises
    [ValueError] with the settings before it already changed and the
    settings after it untouched. *)
Theorem reloadInformations_settings (X : externals) (w : world)
  (r : response) (d : list (string * value)) :
  backend X (sent w)
    {| rq_verb := GET;
       rq_url := py_str (portaddress (self w)) ++ "/metadata/informations";
       rq_json := None; rq_data := None; rq_files := None;
       rq_verify := verify X |} = Answer r ->
  decoded r = Some (DObject d) ->
  let zip := match member d "fileTransferArchive" (VStr "") with
             | VStr a => String.eqb a "zip"
             | _ => false
             end in
  let mode := member d "fileTransferMode" (VInt 0) in
  let login := member d "loginMode" (VInt 1) in
  let run := reloadInformations X w in
  let s' := self (snd run) in
  fst (zipForFolder (snd run)) = Ret zip
  /\ (FileTransferMode X mode = false ->
      fst run = Raise ValueError
      /\ fileTransferMode s' = fileTransferMode (self w)
      /\ loginMode s' = loginMode (self w)
      /\ credentials s' = credentials (self w))
  /\ (FileTransferMode X mode = true -> LoginMode X login = false ->
      fst run = Raise ValueError
      /\ fileTransferMode s' = Some mode
      /\ loginMode s' = loginMode (self w)
      /\ credentials s' = credentials (self w))
  /\ (FileTransferMode X mode = true -> LoginMode X login = true ->
      fst run = Ret tt
      /\ fileTransferMode s' = Some mode
      /\ loginMode s' = Some login
      /\ credentials s'
         = if loginMode_eq_0 X login
           then Some (member d "credentials" (VDict []))
           else credentials (self w)).
Proof.
  intros Hr Hd zip mode login run s'.
  unfold s', run, zip, mode, login, zipForFolder, reloadInformations,
    bind, this, update, send, json, get.
  unfold ret, raise. cbn [self sent]. rewrite Hr, Hd.
  cbn [fst snd self sent].
  destruct (FileTransferMode X (member d "fileTransferMode" (VInt 0)));
    cbn [fst snd self sent];
    [destruct (LoginMode X (member d "loginMode" (VInt 1)));
       cbn [fst snd self sent];
       [destruct (loginMode_eq_0 X (member d "loginMode" (VInt 1)));
          cbn [fst snd self sent]|]|];
    (split; [reflexivity|]);
    (split; [intros E; try discriminate E; repeat split|]);
    (split; intros E E'; try discriminate E; try discriminate E';
     repeat split).
Qed.

Lemma reloadInformations_settings_witness :
  let X := externals_with
             (fun _ _ => Answer (object_reply
                                   [("fileTransferArchive", VStr "zip");
                                    ("fileTransferMode", VInt 5)])) in
  let w := fresh (adapter false true None (VList [])) in
  backend X (sent w)
    {| rq_verb := GET;
       rq_url := py_str (portaddress (self w)) ++ "/metadata/informations";
       rq_json := None; rq_data := None; rq_files := None;
       rq_verify := verify X |}
  = Answer (object_reply [("fileTransferArchive", VStr "zip");
                          ("fileTransferMode", VInt 5)])
  /\ FileTransferMode X (VInt 5) = false
  /\ fst (reloadInformations X w) = Raise ValueError
  /\ fst (zipForFolder (snd (reloadInformations X w))) = Ret true
  /\ fileTransferMode (self (snd (reloadInformations X w))) = None.
Proof.
  intros X w. do 2 (split; [reflexivity|]).
  destruct (reloadInformations_settings X w
              (object_reply [("fileTransferArchive", VStr "zip");
                             ("fileTransferMode", VInt 5)])
              [("fileTransferArchive", VStr "zip");
               ("fileTransferMode", VInt 5)] eq_refl eq_refl)
    as (Hzip & Hbad & _).
  destruct (Hbad eq_refl) as (Hraise & Hmode & _).
  split; [exact Hraise|]. split; [exact Hzip|exact Hmode].
Defined.

(** ** A cache that is no list *)

(** X16. Once the cache is [None] (what [reload] leaves when the listing
    has no [files] member), every method that touches the cache raises
    [TypeError] before it sends anything, whatever the capabilities:
    [getFile], [removeFile], [getFiles], [getDict], and also
    [triggerPassiveMode] and [addFile], which enumerate the cache for
    their log line. *)
Theorem unlisted_cache_breaks_methods (X : externals) (w : world) :
  files (self w) = VNone ->
  (forall i, getFile X i w = (Raise TypeError, w))
  /\ (forall i, removeFile X i w = (Raise TypeError, w))
  /\ (forall n, getFiles_content X (S n) w = (([], Some TypeError), w))
  /\ getDict w = (Raise TypeError, w)
  /\ (forall folder, triggerPassiveMode X folder w = (Raise TypeError, w))
  /\ (forall filename fileContent,
         addFile X filename fileContent w = (Raise TypeError, w)).
Proof.
  intros Hn.
  assert (Hd : getDict w = (Raise TypeError, w)).
  { unfold getDict, getFiles, bind, this, lift. now rewrite Hn. }
  repeat split; intros.
  - unfold getFile, bind, this, lift. now rewrite Hn.
  - unfold removeFile, bind, this, lift. now rewrite Hn.
  - unfold getFiles_content. now rewrite Hn.
  - exact Hd.
  - unfold triggerPassiveMode, getJSON, bind at 1 2, this. now rewrite Hd.
  - unfold addFile, getJSON, bind at 1 2, this. now rewrite Hd.
Qed.

Lemma unlisted_cache_breaks_methods_witness :
  let X := externals_with port_empty_object in
  let w := snd (reload X (fresh (adapter true true (Some sample_properties)
                                   (VList ["old.txt"])))) in
  files (self w) = VNone
  /\ addFile X "a.txt" [] w = (Raise TypeError, w)
  /\ removeFile X 0 w = (Raise TypeError, w).
Proof.
  intros X w. split; [reflexivity|].
  destruct (unlisted_cache_breaks_methods X w eq_refl)
    as (_ & Hrm & _ & _ & _ & Hadd).
  split; [exact (Hadd "a.txt" [])|exact (Hrm 0)].
Defined.

(** ** What the metadata port is told *)

(** X17. With the metadata capability, an enumerable cache and a list of
    properties, [triggerPassiveMode] and [addFile] send exactly one POST
    of [<address>/metadata/project/<projectId>/files] (the trigger with the
    owner and the folder as form data, the upload with the owner and the
    file name as form data and the file itself) and leave the adapter as
    it is. A status below 300 gives true; a status of 300 or more gives
    false when the body of the reply is JSON and [ValueError] when it is
    not; a port that cannot be reached gives [ConnectionError]. *)
Theorem metadata_post_outcome (X : externals) (s : Service)
  (log : list request) (l : list string) (ps : list prop)
  (folder filename : string) (fileContent : list Byte.byte) :
  iterate (files s) = Ret l ->
  metadata s = true ->
  customProperties s = Some ps ->
  let w := {| self := s; sent := log |} in
  let url := py_str (portaddress s) ++ "/metadata/project/"
             ++ py_str (first_match ps "projectId") ++ "/files" in
  let trigger := {| rq_verb := POST; rq_url := url; rq_json := None;
                    rq_data := Some [("userId", userId s);
                                     ("folder", SStr folder)];
                    rq_files := None; rq_verify := verify X |} in
  let upload := {| rq_verb := POST; rq_url := url; rq_json := None;
                   rq_data := Some [("userId", userId s);
                                    ("filename", SStr filename)];
                   rq_files := Some (filename, fileContent);
                   rq_verify := verify X |} in
  let outcome_of (a : reply) : outcome bool :=
    match a with
    | Unreachable => Raise ConnectionError
    | Answer r =>
        if status_code r <? 300 then Ret true
        else match decoded r with
             | Some _ => Ret false
             | None => Raise ValueError
             end
    end in
  triggerPassiveMode X folder w
  = (outcome_of (backend X log trigger),
     {| self := s; sent := (log ++ [trigger])%list |})
  /\ addFile X filename fileContent w
     = (outcome_of (backend X log upload),
        {| self := s; sent := (log ++ [upload])%list |}).
Proof.
  intros Hl Hmd Hps w url trigger upload outcome_of.
  assert (Hj : getJSON w = (Ret (servicename s, l), w)).
  { unfold getJSON, getDict, getFiles, bind, this, lift, ret. cbn [self w].
    now rewrite Hl. }
  assert (Hge : forall r, (status_code r >=? 300) = negb (status_code r <? 300)).
  { intros r. destruct (Z.ltb_spec (status_code r) 300);
      destruct (Z.geb_spec (status_code r) 300); cbn; lia || reflexivity. }
  split.
  - unfold triggerPassiveMode, getProjectId, bind, this, json.
    fold w. rewrite Hj. cbn [self w]. rewrite Hmd.
    rewrite (getProperty_list "projectId" w ps Hps).
    unfold send, ret, raise. cbn [self sent w]. fold url. fold trigger.
    destruct (backend X log trigger) as [|r]; cbn [outcome_of]; [reflexivity|].
    rewrite Hge. destruct (status_code r <? 300); cbn [negb]; [reflexivity|].
    destruct (decoded r); reflexivity.
  - unfold addFile, getProjectId, bind, this, json.
    fold w. rewrite Hj. cbn [self w]. rewrite Hmd.
    rewrite (getProperty_list "projectId" w ps Hps).
    unfold send, ret, raise. cbn [self sent w]. fold url. fold upload.
    destruct (backend X log upload) as [|r]; cbn [outcome_of]; [reflexivity|].
    rewrite Hge. destruct (status_code r <? 300); cbn [negb]; [reflexivity|].
    destruct (decoded r); reflexivity.
Qed.

Lemma metadata_post_outcome_witness :
  let X := externals_with (port_status 201) in
  let s := adapter false true (Some sample_properties) (VList []) in
  iterate (files s) = Ret []
  /\ metadata s = true
  /\ customProperties s = Some sample_properties
  /\ fst (triggerPassiveMode X "photos" (fresh s)) = Ret true
  /\ map rq_url (sent (snd (addFile X "a.txt" [] (fresh s))))
     = ["http://circle1-port-owncloud/metadata/project/7/files"].
Proof.
  intros X s. do 3 (split; [reflexivity|]).
  destruct (metadata_post_outcome X s [] [] sample_properties "photos"
              "a.txt" [] eq_refl eq_refl eq_refl) as (Ht & Ha).
  cbn zeta in Ht, Ha. unfold fresh. rewrite Ht, Ha.
  split; reflexivity.
Defined.

(** ** Storing the listing *)

(** X18. With the storage capability and a list of properties, when the
    port answers the listing request with a JSON object, [reload] stores
    exactly what the object has under [files], whatever the status of the
    reply and whether the metadata branch then completes or raises; it
    returns when the metadata capability is off. The listing request is a
    GET of [<address>/storage/folder] naming the root path and the
    owner. *)
Theorem reload_stores_listing (X : externals) (w : world) (ps : list prop)
  (root : scalar) (r : response) (d : list (string * value)) :
  fileStorage (self w) = true ->
  customProperties (self w) = Some ps ->
  fst (getFilepath w) = Ret root ->
  backend X (sent w)
    {| rq_verb := GET;
       rq_url := py_str (portaddress (self w)) ++ "/storage/folder";
       rq_json := Some [("filepath", root); ("userId", userId (self w))];
       rq_data := None; rq_files := None; rq_verify := verify X |}
  = Answer r ->
  decoded r = Some (DObject d) ->
  files (self (snd (reload X w))) = member d "files" VNone
  /\ (metadata (self w) = false -> fst (reload X w) = Ret tt).
Proof.
  intros HfS Hps Hroot Hr Hd.
  destruct (getFilepath_list w ps Hps) as [root' Hroot'].
  rewrite Hroot' in Hroot. cbn [fst] in Hroot. injection Hroot as ->.
  unfold reload, bind, this, update, send, json, get.
  unfold ret, raise. cbn [self sent]. rewrite HfS, Hroot'.
  cbn [self sent]. rewrite Hr, Hd. cbn [fst snd self sent metadata set_files].
  destruct (metadata (self w)).
  - match goal with |- context [reloadInformations X ?w1] =>
      destruct (reloadInformations_frame X w1) as (Hf & _);
      destruct (reloadInformations X w1) as [[[]|e] w2]
    end; cbn [fst snd self files set_files] in *;
      (split; [exact Hf|discriminate]).
  - split; reflexivity.
Qed.

Lemma reload_stores_listing_witness :
  let X := externals_with (port_lists ["a.txt"; "b.txt"]) in
  let w := fresh (adapter true false (Some sample_properties) (VList [])) in
  fileStorage (self w) = true
  /\ customProperties (self w) = Some sample_properties
  /\ fst (getFilepath w) = Ret (SStr "/photos")
  /\ files (self (snd (reload X w))) = VList ["a.txt"; "b.txt"]
  /\ fst (reload X w) = Ret tt.
Proof.
  intros X w. do 3 (split; [reflexivity|]).
  destruct (reload_stores_listing X w sample_properties (SStr "/photos")
              (object_reply [("files", VList ["a.txt"; "b.txt"])])
              [("files", VList ["a.txt"; "b.txt"])]
              eq_refl eq_refl eq_refl eq_refl eq_refl) as (Hf & Hret).
  split; [exact Hf|exact (Hret eq_refl)].
Defined.

(** ** Names *)

Lemma construction_servicename (X : externals) (name : string)
  (user index : scalar) (storage meta : bool) (props : option (list prop))
  (testing : scalar) (log : list request) :
  let s := self (snd (__init__ X name user index storage meta props
                        testing log)) in
  servicename s = name
  /\ port s = (if startswith name "port-" then name
               else "port-" ++ lower name)
  /\ portaddress s
     = match testing with
       | SBool false =>
           SStr ("http://circle1-"
                 ++ lower (if startswith name "port-" then name
                           else "port-" ++ lower name))
       | _ => testing
       end.
Proof.
  intros s. unfold s, __init__.
  match goal with |- context [reload X ?w0] =>
    destruct (reload_binding X w0) as (Hn & Ha & _ & _ & Hp & _)
  end.
  cbn [self servicename port portaddress] in Hn, Ha, Hp.
  now rewrite Hn, Ha, Hp.
Qed.

(** X19. The port and the address of an adapter depend on the name up to
    the case of its letters, its equality does not: two adapters
    constructed for names that differ in case only (and do not start with
    [port-]) talk to the same port at the same address, and are never
    equal. *)
Theorem equality_is_case_sensitive (X1 X2 : externals) (n1 n2 : string)
  (u1 u2 i1 i2 : scalar) (s1 s2 m1 m2 : bool)
  (p1 p2 : option (list prop)) (testing : scalar) (log1 log2 : list request) :
  startswith n1 "port-" = false ->
  startswith n2 "port-" = false ->
  lower n1 = lower n2 ->
  n1 <> n2 ->
  let a1 := self (snd (__init__ X1 n1 u1 i1 s1 m1 p1 testing log1)) in
  let a2 := self (snd (__init__ X2 n2 u2 i2 s2 m2 p2 testing log2)) in
  port a1 = port a2
  /\ portaddress a1 = portaddress a2
  /\ __eq__ a1 (Some a2) <> Ret true.
Proof.
  intros H1 H2 Hlow Hne a1 a2.
  destruct (construction_servicename X1 n1 u1 i1 s1 m1 p1 testing log1)
    as (Hn1 & Hp1 & Ha1).
  destruct (construction_servicename X2 n2 u2 i2 s2 m2 p2 testing log2)
    as (Hn2 & Hp2 & Ha2).
  fold a1 in Hn1, Hp1, Ha1. fold a2 in Hn2, Hp2, Ha2.
  rewrite H1 in Hp1, Ha1. rewrite H2 in Hp2, Ha2.
  split; [now rewrite Hp1, Hp2, Hlow|].
  split; [now rewrite Ha1, Ha2, Hlow|].
  rewrite eq_unfold.
  destruct (iterate (files a1)) as [l1|e1]; [|discriminate].
  destruct (iterate (files a2)) as [l2|e2]; [|discriminate].
  intros E. injection E as E. apply dict_eqb_eq in E.
  injection E as E _. rewrite Hn1, Hn2 in E. exact (Hne E).
Qed.

Lemma equality_is_case_sensitive_witness :
  let X := externals_with port_down in
  let a1 := self (snd (__init__ X "Owncloud" SNone SNone false false None
                         (SBool false) [])) in
  let a2 := self (snd (__init__ X "owncloud" SNone SNone false false None
                         (SBool false) [])) in
  startswith "Owncloud" "port-" = false
  /\ startswith "owncloud" "port-" = false
  /\ lower "Owncloud" = lower "owncloud"
  /\ "Owncloud" <> "owncloud"
  /\ port a1 = port a2
  /\ portaddress a1 = portaddress a2
  /\ __eq__ a1 (Some a2) <> Ret true.
Proof.
  intros X a1 a2. do 3 (split; [reflexivity|]).
  assert (Hne : "Owncloud" <> "owncloud") by discriminate.
  split; [exact Hne|].
  exact (equality_is_case_sensitive X X "Owncloud" "owncloud"
           SNone SNone SNone SNone false false false false None None
           (SBool false) [] [] eq_refl eq_refl eq_refl Hne).
Defined.

(** * The outcomes of removing and of synchronizing, in full *)

(** ** Remove file *)

(** Names the request that the left-hand side sends to the port. *)
Ltac name_request X lg new :=
  lazymatch goal with
  | |- ?lhs = _ =>
      match lhs with
      | context [backend X lg ?rq] => change rq with new
      end
  end.

Lemma send_run (X : externals) (rq : request) (w : world) :
  send X rq w
  = match backend X (sent w) rq with
    | Unreachable =>
        (Raise ConnectionError,
         {| self := self w; sent := (sent w ++ [rq])%list |})
    | Answer r =>
        (Ret r, {| self := self w; sent := (sent w ++ [rq])%list |})
    end.
Proof. unfold send. destruct (backend X (sent w) rq); reflexivity. Qed.

(** What [removeFile] does, given the entry at the index and the cache
    without it, on an adapter with a list of properties. *)
Lemma removeFile_run (X : externals) (s : Service) (log : list request)
  (i : Z) (l : list string) (ps : list prop) (file : string)
  (l' : list string) :
  files s = VList l ->
  getitem l i = Some file ->
  delitem l i = Some l' ->
  customProperties s = Some ps ->
  exists root,
    getFilepath {| self := s; sent := log |}
    = (Ret root, {| self := s; sent := log |})
    /\ let body := if fileStorage s then path_body s root file
                   else owner_body s in
       let rq_s := storage_delete X s root file in
       let rq_m := metadata_delete X s body (first_match ps "projectId") i in
       let first := if fileStorage s then [rq_s] else [] in
       let second := if metadata s then [rq_m] else [] in
       let a_s := backend X log rq_s in
       let a_m := backend X (log ++ first)%list rq_m in
       let found := (fileStorage s && confirms a_s)
                    || (metadata s && confirms a_m) in
       removeFile X i {| self := s; sent := log |}
       = if fileStorage s && unreachable a_s
         then (Raise ConnectionError,
               {| self := s; sent := (log ++ first)%list |})
         else if metadata s && unreachable a_m
         then (Raise ConnectionError,
               {| self := s; sent := (log ++ first ++ second)%list |})
         else (Ret found,
               {| self := if found then set_files (VList l') s else s;
                  sent := (log ++ first ++ second)%list |}).
Proof.
  intros Hl Hfile Hdel Hps.
  destruct (getFilepath_list {| self := s; sent := log |} ps Hps)
    as [root Hroot].
  exists root. split; [exact Hroot|].
  unfold removeFile, getProjectId, bind, this, lift, ret, update, delete,
    subscript.
  cbn [self sent]. rewrite Hl, Hfile.
  destruct (fileStorage s) eqn:HfS; destruct (metadata s) eqn:Hmd;
    cbn [andb orb].
  - rewrite Hroot, send_run. cbn [self sent].
    name_request X log (storage_delete X s root file).
    destruct (backend X log (storage_delete X s root file)) as [|r1];
      cbn [unreachable confirms fst snd self sent]; [reflexivity|].
    match goal with |- context [getProperty ?k ?w0] =>
      rewrite (getProperty_list k w0 ps Hps) end.
    rewrite send_run. cbn [self sent].
    name_request X (log ++ [storage_delete X s root file])%list
      (metadata_delete X s (path_body s root file)
         (first_match ps "projectId") i).
    destruct (backend X (log ++ [storage_delete X s root file])%list
                (metadata_delete X s (path_body s root file)
                   (first_match ps "projectId") i)) as [|r2];
      cbn [unreachable confirms fst snd self sent];
      [now rewrite <- app_assoc|].
    unfold success.
    destruct (status_code r2 <? 300); [|destruct (status_code r1 <? 300)];
      cbn [orb self sent]; rewrite ?Hl, ?Hdel, ?orb_true_r;
      cbn [self sent]; now rewrite <- app_assoc.
  - rewrite Hroot, send_run. cbn [self sent].
    name_request X log (storage_delete X s root file).
    destruct (backend X log (storage_delete X s root file)) as [|r1];
      cbn [unreachable confirms fst snd self sent]; [reflexivity|].
    unfold success. rewrite orb_false_r.
    destruct (status_code r1 <? 300);
      cbn [self sent]; rewrite ?Hl, ?Hdel;
      cbn [self sent]; now rewrite app_nil_r.
  - match goal with |- context [getProperty ?k ?w0] =>
      rewrite (getProperty_list k w0 ps Hps) end.
    rewrite send_run. cbn [self sent fst snd]. rewrite !app_nil_r.
    name_request X log
      (metadata_delete X s (owner_body s) (first_match ps "projectId") i).
    destruct (backend X log (metadata_delete X s (owner_body s)
                               (first_match ps "projectId") i)) as [|r2];
      cbn [unreachable confirms fst snd self sent]; [reflexivity|].
    unfold success.
    destruct (status_code r2 <? 300);
      cbn [self sent]; rewrite ?Hl, ?Hdel; reflexivity.
  - now rewrite !app_nil_r.
Qed.

Lemma removeFile_run_no_properties (X : externals) (s : Service)
  (log : list request) (i : Z) (l : list string) (file : string) :
  files s = VList l ->
  getitem l i = Some file ->
  customProperties s = None ->
  removeFile X i {| self := s; sent := log |}
  = if fileStorage s || metadata s
    then (Raise TypeError, {| self := s; sent := log |})
    else (Ret false, {| self := s; sent := log |}).
Proof.
  intros Hl Hfile Hps.
  unfold removeFile, getProjectId, bind, this, lift, ret, subscript.
  cbn [self sent]. rewrite Hl, Hfile.
  destruct (fileStorage s); cbn [orb].
  - now rewrite (getFilepath_no_list {| self := s; sent := log |} Hps).
  - destruct (metadata s); [|reflexivity].
    now rewrite (getProperty_no_list "projectId"
                   {| self := s; sent := log |} Hps).
Qed.

(** C1, as amended. On an adapter whose cache is a list, for an index
    inside it: [removeFile] sends the storage delete, by path, when that
    capability is on, and then the metadata delete, by project and index,
    when that one is on. If the port cannot be reached for one of them the
    method raises [ConnectionError] at that request, with the cache
    untouched, also when the storage delete before it has reported success.
    If both are answered it returns the OR of the successes (status below
    300) of the enabled branches: true with the entry deleted and the cache
    one shorter, false, in particular with no capability, with the adapter
    unchanged. Without custom properties an adapter with a capability
    raises [TypeError] before it sends anything. *)
Theorem removeFile_outcome (X : externals) (s : Service)
  (log : list request) (i : Z) (l : list string) :
  files s = VList l ->
  - len l <= i < len l ->
  exists file l',
    getitem l i = Some file
    /\ delitem l i = Some l'
    /\ len l' = len l - 1
    /\ (customProperties s = None ->
        removeFile X i {| self := s; sent := log |}
        = if fileStorage s || metadata s
          then (Raise TypeError, {| self := s; sent := log |})
          else (Ret false, {| self := s; sent := log |}))
    /\ (forall ps,
          customProperties s = Some ps ->
          exists root,
            fst (getFilepath {| self := s; sent := log |}) = Ret root
            /\ let body := if fileStorage s then path_body s root file
                           else owner_body s in
               let rq_s := storage_delete X s root file in
               let rq_m := metadata_delete X s body
                             (first_match ps "projectId") i in
               let first := if fileStorage s then [rq_s] else [] in
               let second := if metadata s then [rq_m] else [] in
               let a_s := backend X log rq_s in
               let a_m := backend X (log ++ first)%list rq_m in
               let found := (fileStorage s && confirms a_s)
                            || (metadata s && confirms a_m) in
               removeFile X i {| self := s; sent := log |}
               = if fileStorage s && unreachable a_s
                 then (Raise ConnectionError,
                       {| self := s; sent := (log ++ first)%list |})
                 else if metadata s && unreachable a_m
                 then (Raise ConnectionError,
                       {| self := s;
                          sent := (log ++ first ++ second)%list |})
                 else (Ret found,
                       {| self := if found then set_files (VList l') s
                                  else s;
                          sent := (log ++ first ++ second)%list |})).
Proof.
  intros Hl Hi.
  destruct (getitem_inside l i Hi) as [file Hfile].
  destruct (delitem_inside l i Hi) as [l' [Hdel Hlen]].
  exists file, l'.
  split; [exact Hfile|]. split; [exact Hdel|]. split; [exact Hlen|].
  split.
  - intros Hps. exact (removeFile_run_no_properties X s log i l file
                         Hl Hfile Hps).
  - intros ps Hps.
    destruct (removeFile_run X s log i l ps file l' Hl Hfile Hdel Hps)
      as (root & Hroot & Hrun).
    exists root. split; [now rewrite Hroot|exact Hrun].
Qed.

(** The scenario of two cached files where the storage delete fails with
    status 500 and the metadata delete succeeds with status 204. *)
Lemma removeFile_outcome_witness :
  let X := externals_with port_500_then_204 in
  let s := adapter true true (Some sample_properties)
             (VList ["a.txt"; "b.txt"]) in
  files s = VList ["a.txt"; "b.txt"]
  /\ - len ["a.txt"; "b.txt"] <= 0 < len ["a.txt"; "b.txt"]
  /\ customProperties s = Some sample_properties
  /\ removeFile X 0 (fresh s)
     = (Ret true,
        {| self := set_files (VList ["b.txt"]) s;
           sent := [storage_delete X s (SStr "/photos") "a.txt";
                    metadata_delete X s
                      (path_body s (SStr "/photos") "a.txt") (SInt 7) 0] |}).
Proof.
  intros X s.
  assert (Hi : - len ["a.txt"; "b.txt"] <= 0 < len ["a.txt"; "b.txt"])
    by (unfold len; cbn; lia).
  split; [reflexivity|]. split; [exact Hi|]. split; [reflexivity|].
  destruct (removeFile_outcome X s [] 0 ["a.txt"; "b.txt"] eq_refl Hi)
    as (file & l' & Hfile & Hdel & _ & _ & Hrun).
  cbn in Hfile, Hdel. injection Hfile as <-. injection Hdel as <-.
  destruct (Hrun sample_properties eq_refl) as (root & Hroot & Heq).
  cbn in Hroot. injection Hroot as <-.
  unfold fresh. rewrite Heq. reflexivity.
Defined.

(** C1, as stated, fails: with both capabilities, the storage delete
    answered with status 204 and the port out of reach for the metadata
    delete, a branch has reported success and yet [removeFile] does not
    return true: it raises, and the cache keeps the entry. *)
Lemma removeFile_success_then_unreachable :
  let X := externals_with port_204_then_down in
  let s := adapter true true (Some sample_properties)
             (VList ["a.txt"; "b.txt"]) in
  let rq_s := storage_delete X s (SStr "/photos") "a.txt" in
  let rq_m := metadata_delete X s (path_body s (SStr "/photos") "a.txt")
                (SInt 7) 0 in
  backend X [] rq_s = Answer (plain 204)
  /\ success (plain 204) = true
  /\ removeFile X 0 (fresh s)
     = (Raise ConnectionError, {| self := s; sent := [rq_s; rq_m] |})
  /\ fst (removeFile X 0 (fresh s)) <> Ret true
  /\ files (self (snd (removeFile X 0 (fresh s)))) = VList ["a.txt"; "b.txt"].
Proof.
  intros X s rq_s rq_m. repeat split; try reflexivity. discriminate.
Qed.

(** ** Negative indices *)





(** ** Remove all files *)

(** C9, as amended. [removeAllFiles] sends nothing for the storage branch:
    the only request before the resynchronization is the bulk delete of
    the metadata branch, when that capability is on. If the port cannot be
    reached for it, or the project cannot be looked up for want of custom
    properties, the method raises. Otherwise the result is the storage
    flag OR-ed with the success of the bulk delete: when it is false the
    method returns false with the adapter unchanged; when it is true the
    method runs [reload] on the unchanged adapter, without clearing the
    cache itself, and returns true if [reload] returns and raises what
    [reload] raises if it fails. *)
Theorem removeAllFiles_outcome (X : externals) (s : Service)
  (log : list request) :
  let w := {| self := s; sent := log |} in
  (metadata s = false ->
   removeAllFiles X w
   = if fileStorage s then resynchronized (reload X w) else (Ret false, w))
  /\ (metadata s = true -> customProperties s = None ->
      removeAllFiles X w = (Raise TypeError, w))
  /\ (forall ps,
        metadata s = true -> customProperties s = Some ps ->
        let rq := bulk_delete X s (first_match ps "projectId") in
        let w1 := {| self := s; sent := (log ++ [rq])%list |} in
        removeAllFiles X w
        = match backend X log rq with
          | Unreachable => (Raise ConnectionError, w1)
          | Answer r =>
              if fileStorage s || success r
              then resynchronized (reload X w1)
              else (Ret false, w1)
          end).
Proof.
  intros w. unfold w.
  unfold removeAllFiles, getProjectId, bind, this, ret. cbn [self sent].
  split; [|split].
  - intros Hmd. rewrite Hmd.
    destruct (fileStorage s); [|reflexivity].
    unfold resynchronized.
    destruct (reload X _) as [[[]|e] w']; reflexivity.
  - intros Hmd Hps. rewrite Hmd.
    now rewrite (getProperty_no_list "projectId"
                   {| self := s; sent := log |} Hps).
  - intros ps Hmd Hps. rewrite Hmd.
    rewrite (getProperty_list "projectId" {| self := s; sent := log |} ps
               Hps).
    rewrite send_run. cbn [self sent].
    name_request X log (bulk_delete X s (first_match ps "projectId")).
    set (rq := bulk_delete X s (first_match ps "projectId")).
    set (w1 := {| self := s; sent := (log ++ [rq])%list |}).
    destruct (backend X log rq) as [|r]; [reflexivity|].
    unfold success, resynchronized.
    destruct (fileStorage s); cbn [orb].
    + assert (E : (if status_code r <? 300 then true else true) = true)
        by (destruct (status_code r <? 300); reflexivity).
      rewrite E. destruct (reload X w1) as [[[]|e] w']; reflexivity.
    + destruct (status_code r <? 300); [|reflexivity].
      destruct (reload X w1) as [[[]|e] w']; reflexivity.
Qed.

Lemma removeAllFiles_outcome_witness :
  let X := externals_with (port_lists ["c.txt"]) in
  let s := adapter true true (Some sample_properties) (VList ["a.txt"]) in
  metadata s = true
  /\ customProperties s = Some sample_properties
  /\ backend X [] (bulk_delete X s (SInt 7)) <> Unreachable
  /\ fst (removeAllFiles X (fresh s)) = Ret true
  /\ files (self (snd (removeAllFiles X (fresh s)))) = VList ["c.txt"]
  /\ map rq_url (sent (snd (removeAllFiles X (fresh s))))
     = ["http://circle1-port-owncloud/metadata/project/7/files";
        "http://circle1-port-owncloud/storage/folder";
        "http://circle1-port-owncloud/metadata/informations"].
Proof.
  intros X s. split; [reflexivity|]. split; [reflexivity|].
  split; [discriminate|].
  destruct (removeAllFiles_outcome X s []) as (_ & _ & Hrun).
  specialize (Hrun sample_properties eq_refl eq_refl). cbn zeta in Hrun.
  unfold fresh. rewrite Hrun. repeat split.
Defined.

(** C9, as stated, fails: a storage adapter whose port cannot be reached
    does not return true; the resynchronization raises. *)
Lemma removeAllFiles_port_down :
  let X := externals_with port_down in
  let s := adapter true false (Some sample_properties) (VList ["a.txt"]) in
  fileStorage s = true
  /\ removeAllFiles X (fresh s)
     = (Raise ConnectionError,
        {| self := s; sent := [listing_request X s (SStr "/photos")] |})
  /\ fst (removeAllFiles X (fresh s)) <> Ret true.
Proof.
  intros X s. split; [reflexivity|]. split; [reflexivity|discriminate].
Qed.

(** ** Synchronization *)

Lemma reloadInformations_unreachable (X : externals) (w : world) :
  backend X (sent w) (informations_request X (self w)) = Unreachable ->
  reloadInformations X w
  = (Raise ConnectionError,
     {| self := self w;
        sent := (sent w ++ [informations_request X (self w)])%list |}).
Proof.
  intros Hr. unfold reloadInformations, bind, this.
  rewrite send_run. cbn [self sent].
  name_request X (sent w) (informations_request X (self w)).
  now rewrite Hr.
Qed.

(** C4, as amended. [reload] runs the storage branch and then the metadata
    branch, and a failure of either aborts it with that failure. A failure
    in the storage branch (no custom properties to take the root path
    from, a port out of reach, a reply that is no JSON or no object)
    leaves the cache as it was and the metadata branch not run. Once the
    storage branch has completed the cache holds what the listing has
    under [files], and [reload] ends as the metadata branch ends: if that
    one fails, for instance because the port is out of reach, [reload]
    raises and the cache keeps the new listing; nothing is rolled back. *)
Theorem reload_outcome (X : externals) (w : world) :
  (fileStorage (self w) = false ->
   reload X w
   = if metadata (self w) then reloadInformations X w else (Ret tt, w))
  /\ (fileStorage (self w) = true -> customProperties (self w) = None ->
      reload X w = (Raise TypeError, w))
  /\ (forall root,
        fileStorage (self w) = true ->
        fst (getFilepath w) = Ret root ->
        let rq := listing_request X (self w) root in
        let sent1 := (sent w ++ [rq])%list in
        let aborted := {| self := self w; sent := sent1 |} in
        match backend X (sent w) rq with
        | Unreachable => reload X w = (Raise ConnectionError, aborted)
        | Answer r =>
            match decoded r with
            | None => reload X w = (Raise ValueError, aborted)
            | Some DOther => reload X w = (Raise AttributeError, aborted)
            | Some (DObject d) =>
                let listed := set_files (member d "files" VNone) (self w) in
                let w1 := {| self := listed; sent := sent1 |} in
                let info := informations_request X (self w) in
                reload X w
                = (if metadata (self w) then reloadInformations X w1
                   else (Ret tt, w1))
                /\ files (self (snd (reload X w))) = member d "files" VNone
                /\ (metadata (self w) = true ->
                    forall e, fst (reloadInformations X w1) = Raise e ->
                              fst (reload X w) = Raise e)
                /\ (metadata (self w) = true ->
                    backend X sent1 info = Unreachable ->
                    reload X w
                    = (Raise ConnectionError,
                       {| self := listed;
                          sent := (sent1 ++ [info])%list |}))
            end
        end).
Proof.
  split; [|split].
  - intros HfS. unfold reload, bind, this, ret. cbn [self sent].
    rewrite HfS. destruct (metadata (self w)); [|reflexivity].
    destruct (reloadInformations X w) as [[[]|e] w']; reflexivity.
  - intros HfS Hps. unfold reload, bind, this. cbn [self sent].
    rewrite HfS. now rewrite (getFilepath_no_list w Hps).
  - intros root HfS Hroot rq sent1 aborted.
    assert (Hpath : getFilepath w = (Ret root, w)).
    { destruct (getFilepath_cases w) as [[root' E] | E];
        rewrite E in Hroot; cbn [fst] in Hroot; [|discriminate].
      injection Hroot as ->. exact E. }
    assert (Hrun : reload X w
                   = match backend X (sent w) rq with
                     | Unreachable => (Raise ConnectionError, aborted)
                     | Answer r =>
                         match decoded r with
                         | None => (Raise ValueError, aborted)
                         | Some DOther => (Raise AttributeError, aborted)
                         | Some (DObject d) =>
                             let w1 :=
                               {| self := set_files (member d "files" VNone)
                                            (self w);
                                  sent := sent1 |} in
                             if metadata (self w)
                             then reloadInformations X w1
                             else (Ret tt, w1)
                         end
                     end).
    { unfold aborted, sent1.
      unfold reload, bind, this, update, json, get.
      unfold ret, raise. cbn [self sent]. rewrite HfS, Hpath, send_run.
      cbn [self sent].
      name_request X (sent w) (listing_request X (self w) root).
      fold rq.
      destruct (backend X (sent w) rq) as [|r]; [reflexivity|].
      destruct (decoded r) as [[d|]|]; try reflexivity.
      cbn [fst snd self sent metadata set_files].
      destruct (metadata (self w)); [|reflexivity].
      destruct (reloadInformations X _) as [[[]|e] w']; reflexivity. }
    destruct (backend X (sent w) rq) as [|r]; [exact Hrun|].
    destruct (decoded r) as [[d|]|]; try exact Hrun.
    cbn zeta in Hrun |- *.
    set (w1 := {| self := set_files (member d "files" VNone) (self w);
                  sent := sent1 |}) in *.
    split; [exact Hrun|]. rewrite Hrun.
    destruct (metadata (self w)) eqn:Hmd.
    + split.
      { destruct (reloadInformations_frame X w1) as (Hf & _).
        rewrite Hf. reflexivity. }
      split; [intros _ e He; exact He|].
      intros _ Hdown.
      exact (reloadInformations_unreachable X w1 Hdown).
    + split; [reflexivity|]. split; discriminate.
Qed.

Lemma reload_outcome_witness :
  let X := externals_with port_listing_then_down in
  let w := fresh (adapter true true (Some sample_properties)
                    (VList ["old.txt"])) in
  let rq := listing_request X (self w) (SStr "/photos") in
  let info := informations_request X (self w) in
  fileStorage (self w) = true
  /\ fst (getFilepath w) = Ret (SStr "/photos")
  /\ metadata (self w) = true
  /\ backend X [rq] info = Unreachable
  /\ reload X w
     = (Raise ConnectionError,
        {| self := set_files (VList ["new.txt"]) (self w);
           sent := [rq; info] |}).
Proof.
  intros X w rq info. do 4 (split; [reflexivity|]).
  destruct (reload_outcome X w) as (_ & _ & Hrun).
  specialize (Hrun (SStr "/photos") eq_refl eq_refl).
  cbn zeta in Hrun.
  change (backend X (sent w) (listing_request X (self w) (SStr "/photos")))
    with (Answer (object_reply [("files", VList ["new.txt"])])) in Hrun.
  cbn [decoded object_reply] in Hrun.
  destruct Hrun as (_ & _ & _ & Hdown).
  exact (Hdown eq_refl eq_refl).
Defined.
